(** * tweetcatcher: a shallow embedding of [src/tweetcatcher.py]

    The bot listens to a websocket announcing new tokens, fetches the token
    metadata, extracts a tweet link, filters it through a blacklist of
    already processed tweets and a list of allowed accounts, and forwards
    the accepted links to a Discord channel.

    Modelling conventions.
    - A Python [str] is a [string] of 8-bit characters.  [str.lower] and
      [str.isalnum] are modelled on the ASCII range; a code above 127 is
      left unchanged by [lower] and is not alphanumeric.
    - A value decoded by [json.loads] / [response.json()] is a [json] tree;
      a dict is an association list whose first binding of a key is the
      value of that key.
    - The network and the file system are an explicit [world] consulted by
      the functions that perform input and output; the module level lists,
      the blacklist file and the observable effects are an explicit [state].
    - A Python exception is the [Raise] result of the [exc] monad; each
      [try ... except Exception] of the source is a [match] on it. *)

From Stdlib Require Import String Ascii List Bool Arith ZArith Lia.
Import ListNotations.
Open Scope string_scope.

(** ** Python string primitives *)

Module PyStr.

Fixpoint drop (n : nat) (s : string) : string :=
  match n, s with
  | O, _ => s
  | S _, EmptyString => EmptyString
  | S n', String _ s' => drop n' s'
  end.

(** [str.partition]: the text before and after the first occurrence of
    [sep], or [None] when [sep] does not occur. *)
Fixpoint partition (sep s : string) : option (string * string) :=
  if prefix sep s then Some (EmptyString, drop (String.length sep) s)
  else match s with
       | EmptyString => None
       | String c s' =>
           match partition sep s' with
           | Some (b, a) => Some (String c b, a)
           | None => None
           end
       end.

(** [sep in s] *)
Definition contains (sep s : string) : bool :=
  match partition sep s with Some _ => true | None => false end.

(** [s.split(sep)] for a non-empty [sep]: cut at the first occurrence and
    go on with the rest.  The recursion is on a counter that starts at the
    length of [s], which the text after an occurrence never reaches. *)
Fixpoint split_fuel (n : nat) (sep s : string) : list string :=
  match n with
  | O => [s]
  | S n' =>
      match partition sep s with
      | None => [s]
      | Some (b, a) => b :: split_fuel n' sep a
      end
  end.

Definition split (sep s : string) : list string :=
  split_fuel (String.length s) sep s.

(** [c.lower()] and [c.isalnum()] on one character *)
Definition lower_ascii (c : ascii) : ascii :=
  let n := nat_of_ascii c in
  if ((65 <=? n) && (n <=? 90))%nat then ascii_of_nat (n + 32) else c.

Definition isalnum (c : ascii) : bool :=
  let n := nat_of_ascii c in
  (((48 <=? n) && (n <=? 57)) || ((65 <=? n) && (n <=? 90))
   || ((97 <=? n) && (n <=? 122)))%nat.

Fixpoint lower (s : string) : string :=
  match s with
  | EmptyString => EmptyString
  | String c s' => String (lower_ascii c) (lower s')
  end.

(** [''.join(c for c in s if keep c)] *)
Fixpoint filter (keep : ascii -> bool) (s : string) : string :=
  match s with
  | EmptyString => EmptyString
  | String c s' => if keep c then String c (filter keep s') else filter keep s'
  end.

(** [c] occurs in [s] *)
Fixpoint has_char (c : ascii) (s : string) : bool :=
  match s with
  | EmptyString => false
  | String d s' => Ascii.eqb c d || has_char c s'
  end.

(** [x in l] for a list of strings *)
Definition mem (x : string) (l : list string) : bool :=
  existsb (String.eqb x) l.

End PyStr.

(** ** Decoded JSON values and the Python operations used on them *)

(** The result of [json.loads].  Of a number this program observes only its
    truth value, so a float carries whether it is non-zero. *)
#[warnings="-register-all"] Inductive json : Type :=
| JNull
| JBool (b : bool)
| JInt (z : Z)
| JFloat (nonzero : bool)
| JStr (s : string)
| JArr (l : list json)
| JObj (fields : list (string * json)).

(** A computation that may raise a Python exception. *)
Inductive exc (A : Type) : Type :=
| Ok (a : A)
| Raise.
Arguments Ok {A} a.
Arguments Raise {A}.

Definition bind {A B : Type} (m : exc A) (k : A -> exc B) : exc B :=
  match m with
  | Ok a => k a
  | Raise => Raise
  end.

Notation "x <- m ;; k" := (bind m (fun x => k))
  (at level 61, m at next level, right associativity).

Module Py.

Fixpoint lookup (k : string) (fields : list (string * json)) : option json :=
  match fields with
  | [] => None
  | (k', v) :: rest => if String.eqb k k' then Some v else lookup k rest
  end.

(** [v == s] for a string literal [s] *)
Definition is_str (v : json) (s : string) : bool :=
  match v with
  | JStr x => String.eqb x s
  | _ => false
  end.

(** the truth value of [v], as [if v] and [not v] take it *)
Definition truthy (v : json) : bool :=
  match v with
  | JNull => false
  | JBool b => b
  | JInt z => negb (Z.eqb z 0)
  | JFloat nonzero => nonzero
  | JStr s => negb (String.eqb s "")
  | JArr l => match l with [] => false | _ => true end
  | JObj fields => match fields with [] => false | _ => true end
  end.

(** [k in v]: a key of a dict, an element of a list, a substring of a
    string; [TypeError] on anything else. *)
Definition contains (k : string) (v : json) : exc bool :=
  match v with
  | JObj fields => Ok (match lookup k fields with Some _ => true | None => false end)
  | JArr l => Ok (existsb (fun x => is_str x k) l)
  | JStr s => Ok (PyStr.contains k s)
  | _ => Raise
  end.

(** [v[k]] for a string [k]: [KeyError] on a dict without the key,
    [TypeError] on anything that is not a dict. *)
Definition getitem (v : json) (k : string) : exc json :=
  match v with
  | JObj fields => match lookup k fields with Some x => Ok x | None => Raise end
  | _ => Raise
  end.

(** [v.get(k, default)]: [AttributeError] on anything that is not a dict. *)
Definition get (v : json) (k : string) (default : json) : exc json :=
  match v with
  | JObj fields => Ok (match lookup k fields with Some x => x | None => default end)
  | _ => Raise
  end.

(** [a and b], with [b] evaluated only when [a] is true *)
Definition and_then (a : exc bool) (b : exc bool) : exc bool :=
  x <- a ;; if x then b else Ok false.

(** [not x] for the result of an extraction, [None] or a string *)
Definition not_ (x : option string) : bool :=
  match x with
  | None => true
  | Some s => String.eqb s ""
  end.

End Py.

(** ** Link parser: [extract_account_name], [extract_tweet_id] *)

Definition is_host (part : string) : bool :=
  String.eqb part "x.com" || String.eqb part "twitter.com".

Definition clean (c : ascii) : bool :=
  PyStr.isalnum c || Ascii.eqb c "_".

(** The loop of [extract_account_name] over [enumerate(parts)]: the test
    [i + 1 < len(parts)] holds exactly when [part] has a successor. *)
Fixpoint find_account (parts : list string) : option string :=
  match parts with
  | part :: ((next :: _) as rest) =>
      if is_host part then Some (PyStr.filter clean (PyStr.lower next))
      else find_account rest
  | _ => None
  end.

(** [l[i]], with [IndexError] *)
Definition index {A : Type} (l : list A) (i : nat) : exc A :=
  match nth_error l i with
  | Some x => Ok x
  | None => Raise
  end.

Definition extract_account_name_str (twitter_link : string) : exc (option string) :=
  l1 <- (if PyStr.contains "#" twitter_link
         then index (PyStr.split "#" twitter_link) 0
         else Ok twitter_link) ;;
  l2 <- (if PyStr.contains "/status/" l1
         then index (PyStr.split "/status/" l1) 0
         else Ok l1) ;;
  Ok (find_account (PyStr.split "/" l2)).

Definition extract_tweet_id_str (twitter_link : string) : exc (option string) :=
  if PyStr.contains "/status/" twitter_link then
    a <- index (PyStr.split "/status/" twitter_link) 1 ;;
    b <- index (PyStr.split "#" a) 0 ;;
    c <- index (PyStr.split "?" b) 0 ;;
    Ok (Some c)
  else Ok None.

(** [try: ... except Exception: return None] *)
Definition catch_none (r : exc (option string)) : option string :=
  match r with
  | Ok x => x
  | Raise => None
  end.

(** On a value that is not a [str] every path of the body raises and the
    handler returns [None]: [in] raises [TypeError] on a number, a boolean
    and [None], and on a list or a dict the [.split] call that every path
    reaches raises [AttributeError]. *)
Definition extract_account_name (twitter_link : json) : option string :=
  match twitter_link with
  | JStr s => catch_none (extract_account_name_str s)
  | _ => None
  end.

(** As above: on a list or a dict that contains ['/status/'] the [.split]
    call raises and the handler returns [None]; without it the body itself
    returns [None]. *)
Definition extract_tweet_id (twitter_link : json) : option string :=
  match twitter_link with
  | JStr s => catch_none (extract_tweet_id_str s)
  | _ => None
  end.

(** ** The world and the state of the bot *)

(** What [requests.get(uri, timeout=REQUEST_TIMEOUT)] followed by
    [response.json()] can produce: [requests.Timeout], another exception of
    the transport, or a response with its status code and its body, where
    the body is [None] when [response.json()] raises. *)
Inductive http_result : Type :=
| Timeout
| RequestError
| Response (status_code : Z) (body : option json).

(** The surroundings of one frame: the answer of the network to a request
    and whether opening and writing the blacklist file succeeds. *)
Record world : Type := {
  http_get : string -> http_result;
  append_ok : bool
}.

(** Observable effects, in the order in which they happen. *)
Inductive event : Type :=
| EvGet (uri : string)                  (* requests.get on a URL *)
| EvWrite (text : string)               (* text appended to the file *)
| EvWriteFailed (text : string)         (* the append raised, and was logged *)
| EvRemember (key : string)             (* tweet_blacklist.append *)
| EvSend (twitter_link : json) (account_name : string).
                                        (* send_tweet handed to the bot's loop *)

(** The module level lists, the text of [TWEET_BLACKLIST_FILE], and the
    effects so far. *)
Record state : Type := {
  tweet_blacklist : list string;
  allowed_accounts : list string;
  blacklist_file : string;
  effects : list event
}.

Definition emit (e : event) (st : state) : state :=
  {| tweet_blacklist := tweet_blacklist st;
     allowed_accounts := allowed_accounts st;
     blacklist_file := blacklist_file st;
     effects := effects st ++ [e] |}.

(** ** [save_to_blacklist] *)

Definition newline : string := String "010" "".

(** The append either adds the whole text to the file or raises before
    anything of it is in the file; the handler logs the exception. *)
Definition save_to_blacklist (w : world) (st : state)
    (tweet_id account_name : string) : state :=
  let key := tweet_id ++ "|" ++ account_name in
  if append_ok w then
    {| tweet_blacklist := tweet_blacklist st ++ [key];
       allowed_accounts := allowed_accounts st;
       blacklist_file := blacklist_file st ++ key ++ newline;
       effects := effects st ++ [EvWrite (key ++ newline); EvRemember key] |}
  else emit (EvWriteFailed (key ++ newline)) st.

(** ** Metadata resolver: [get_token_links] *)

Record links : Type := {
  twitter : json;
  website : json;
  telegram : json
}.

Definition unavailable : string := "Non disponible".

Definition default_links : links :=
  {| twitter := JStr unavailable;
     website := JStr unavailable;
     telegram := JStr unavailable |}.

(** Lines 120-126: the update from [metadata['properties']['links']]. *)
Definition update_from_properties (metadata : json) (l : links) : exc links :=
  c <- Py.and_then (Py.contains "properties" metadata)
         (p <- Py.getitem metadata "properties" ;; Py.contains "links" p) ;;
  if c then
    p <- Py.getitem metadata "properties" ;;
    links_data <- Py.getitem p "links" ;;
    tw <- Py.get links_data "twitter" (twitter l) ;;
    we <- Py.get links_data "website" (website l) ;;
    te <- Py.get links_data "telegram" (telegram l) ;;
    Ok {| twitter := tw; website := we; telegram := te |}
  else Ok l.

(** Lines 129-133: the update from the keys of [metadata] itself; the
    inner [get] is the default of the outer one and is evaluated first. *)
Definition update_from_metadata (metadata : json) (l : links) : exc links :=
  tw' <- Py.get metadata "twitter_link" (twitter l) ;;
  tw <- Py.get metadata "twitter" tw' ;;
  we' <- Py.get metadata "website_link" (website l) ;;
  we <- Py.get metadata "website" we' ;;
  te' <- Py.get metadata "telegram_link" (telegram l) ;;
  te <- Py.get metadata "telegram" te' ;;
  Ok {| twitter := tw; website := we; telegram := te |}.

(** [requests.get] on the value of [uri].  A value that is not a [str] is
    turned into text that has no URL scheme, and the call raises before
    anything is sent. *)
Definition request (w : world) (st : state) (uri : json) : http_result * state :=
  match uri with
  | JStr u => (http_get w u, emit (EvGet u) st)
  | _ => (RequestError, st)
  end.

(** The [try] block of [get_token_links], on the dict [l] that the
    function updates in place: the dict when the block is left, and whether
    it is left by an exception. *)
Definition get_token_links_try (w : world) (st : state) (uri : json) (l : links)
    : links * exc unit * state :=
  if negb (Py.truthy uri) then (l, Ok tt, st)
  else
    let (r, st1) := request w st uri in
    match r with
    | Timeout => (l, Raise, st1)
    | RequestError => (l, Raise, st1)
    | Response status_code body =>
        if Z.eqb status_code 200 then
          match body with
          | None => (l, Raise, st1)
          | Some metadata =>
              match update_from_properties metadata l with
              | Raise => (l, Raise, st1)
              | Ok l1 =>
                  match update_from_metadata metadata l1 with
                  | Raise => (l1, Raise, st1)
                  | Ok l2 => (l2, Ok tt, st1)
                  end
              end
          end
        else (l, Ok tt, st1)
    end.

(** Both handlers log and fall through to [return links]. *)
Definition get_token_links (w : world) (st : state) (uri : json) : links * state :=
  let '(l, _, st1) := get_token_links_try w st uri default_links in (l, st1).

(** ** Filter gate: [process_token] *)

Inductive reason : Type :=
| NoSocialLink
| UnparsableLink
| AlreadyProcessed
| AccountNotAllowed.

Inductive decision : Type :=
| Accept (account message_id : string)
| Reject (r : reason).

Definition text (x : option string) : string :=
  match x with
  | Some s => s
  | None => "None"
  end.

(** The body of [process_token] from [links = get_token_links(uri)] on.
    The result names the [return] that is reached. *)
Definition process_uri (w : world) (st : state) (uri : json) : decision * state :=
  let (l, st1) := get_token_links w st uri in
  let twitter_link := twitter l in
  if Py.is_str twitter_link unavailable then (Reject NoSocialLink, st1)
  else
    let account_name := extract_account_name twitter_link in
    let tweet_id := extract_tweet_id twitter_link in
    if Py.not_ account_name || Py.not_ tweet_id then (Reject UnparsableLink, st1)
    else
      let tweet_key := text tweet_id ++ "|" ++ text account_name in
      if PyStr.mem tweet_key (tweet_blacklist st1) then (Reject AlreadyProcessed, st1)
      else if negb (PyStr.mem (text account_name) (allowed_accounts st1))
      then (Reject AccountNotAllowed, st1)
      else
        let st2 := save_to_blacklist w st1 (text tweet_id) (text account_name) in
        (Accept (text account_name) (text tweet_id),
         emit (EvSend twitter_link (text account_name)) st2).

(** [token_data.get('uri', token_data.get('metadataUri', ''))] *)
Definition token_uri (token_data : json) : exc json :=
  d <- Py.get token_data "metadataUri" (JStr "") ;;
  Py.get token_data "uri" d.

(** [process_token]: [None] when the body raises, which the handler logs. *)
Definition process_token (w : world) (st : state) (token_data : json)
    : option decision * state :=
  match token_uri token_data with
  | Raise => (None, st)
  | Ok uri => let (d, st1) := process_uri w st uri in (Some d, st1)
  end.

(** ** Event classifier: [on_websocket_message] *)

(** The [if]/[elif] chain: the argument passed to [process_token], if any. *)
Definition classify (data : json) : exc (option json) :=
  c1 <- Py.and_then (Py.contains "method" data)
          (v <- Py.getitem data "method" ;; Ok (Py.is_str v "newToken")) ;;
  if c1 then p <- Py.getitem data "params" ;; Ok (Some p)
  else
    c2 <- Py.and_then (Py.contains "type" data)
            (v <- Py.getitem data "type" ;; Ok (Py.is_str v "newToken")) ;;
    if c2 then Ok (Some data)
    else
      c3 <- Py.and_then (Py.contains "event" data)
              (v <- Py.getitem data "event" ;; Ok (Py.is_str v "token_created")) ;;
      if c3 then p <- Py.getitem data "data" ;; Ok (Some p)
      else
        c4 <- Py.and_then (Py.contains "mint" data)
                (Py.and_then (Py.contains "txType" data)
                   (v <- Py.getitem data "txType" ;; Ok (Py.is_str v "create"))) ;;
        if c4 then Ok (Some data) else Ok None.

Inductive frame_result : Type :=
| Processed (d : option decision)   (* process_token was called *)
| Ignored                           (* no branch of the chain was taken *)
| FrameError.                       (* an exception was caught and logged *)

(** [message] is the result of [json.loads], [None] when it raises. *)
Definition on_websocket_message (w : world) (st : state) (message : option json)
    : frame_result * state :=
  match message with
  | None => (FrameError, st)
  | Some data =>
      match classify data with
      | Raise => (FrameError, st)
      | Ok None => (Ignored, st)
      | Ok (Some token_data) =>
          let (d, st1) := process_token w st token_data in (Processed d, st1)
      end
  end.

(** The receive loop of one connection: frames are handled one after the
    other, each in the world of its moment. *)
Fixpoint receive (st : state) (frames : list (world * option json)) : state :=
  match frames with
  | [] => st
  | (w, message) :: rest => receive (snd (on_websocket_message w st message)) rest
  end.

(** ** Reference functions for the statements about the link parser *)

(** The text of [s] before the first [c], all of [s] when there is none. *)
Fixpoint before_char (c : ascii) (s : string) : string :=
  match s with
  | "" => ""
  | String d s' => if Ascii.eqb c d then "" else String d (before_char c s')
  end.



(** ** Reference predicates for the statements about unrecognized links *)

(** Some segment of the path of [url] is one of the two hosts. *)
Definition has_host_segment (url : string) : Prop :=
  exists seg, In seg (PyStr.split "/" url) /\ is_host seg = true.

(** [url] contains the marker. *)
Definition has_status_marker (url : string) : Prop :=
  exists a b, url = a ++ "/status/" ++ b.

(** ** Reference definitions for the statements about the link round trip *)



(** ** Reference definitions for the statements about the pipeline *)

(** The link that the resolver hands to the gate. *)
Definition resolved_link (w : world) (st : state) (uri : json) : json :=
  twitter (fst (get_token_links w st uri)).

(** The calls of [send_tweet] and the lines written, among some effects. *)
Definition sent (es : list event) : list (json * string) :=
  flat_map (fun e => match e with EvSend l a => [(l, a)] | _ => [] end) es.

Definition written (es : list event) : list string :=
  flat_map (fun e => match e with EvWrite text => [text] | _ => [] end) es.

(** The number of occurrences of [c] in [s]. *)
Fixpoint count_char (c : ascii) (s : string) : nat :=
  match s with
  | "" => 0
  | String d s' => (if Ascii.eqb c d then 1 else 0) + count_char c s'
  end.

(** The key of the ledger. *)
Definition dedup_key (message_id account : string) : string :=
  message_id ++ "|" ++ account.

(** An extraction is absent when it produced nothing: [None], or the empty
    text, which [not account_name or not tweet_id] treats alike. *)
Definition absent (x : option string) : bool :=
  match x with
  | None => true
  | Some "" => true
  | Some _ => false
  end.

(** The filter gate of the specification, on the resolved link: the four
    checks in their order, each one ending the evaluation. *)
Definition gate (twitter_link : json) (ledger allow : list string) : decision :=
  if Py.is_str twitter_link unavailable then Reject NoSocialLink
  else
    match extract_account_name twitter_link, extract_tweet_id twitter_link with
    | Some account, Some message_id =>
        if absent (Some account) || absent (Some message_id)
        then Reject UnparsableLink
        else if PyStr.mem (dedup_key message_id account) ledger
        then Reject AlreadyProcessed
        else if PyStr.mem account allow then Accept account message_id
        else Reject AccountNotAllowed
    | _, _ => Reject UnparsableLink
    end.

(** ** Reference definitions for the statements about the resolver *)

(** The nested object [properties.links] of a metadata object. *)
Definition nested_links (fields : list (string * json)) : option (list (string * json)) :=
  match Py.lookup "properties" fields with
  | Some (JObj p) =>
      match Py.lookup "links" p with
      | Some (JObj links_data) => Some links_data
      | _ => None
      end
  | _ => None
  end.

(** A source overrides the earlier value only with a key that it has. *)
Definition override (v : option json) (earlier : json) : json :=
  match v with
  | Some x => x
  | None => earlier
  end.

(** One field of the bundle: the default, overridden by the nested object,
    then by the key [alt], then by the key [key] of the metadata. *)
Definition populate (key alt : string) (fields : list (string * json)) : json :=
  let nested :=
    match nested_links fields with
    | Some links_data => override (Py.lookup key links_data) (JStr unavailable)
    | None => JStr unavailable
    end in
  override (Py.lookup key fields) (override (Py.lookup alt fields) nested).

Definition populated (fields : list (string * json)) : links :=
  {| twitter := populate "twitter" "twitter_link" fields;
     website := populate "website" "website_link" fields;
     telegram := populate "telegram" "telegram_link" fields |}.

(** [properties], when the metadata has it, is an object, and so is its
    [links], when it has one. *)
Definition well_shaped (fields : list (string * json)) : Prop :=
  match Py.lookup "properties" fields with
  | None => True
  | Some (JObj p) =>
      match Py.lookup "links" p with
      | None => True
      | Some (JObj _) => True
      | Some _ => False
      end
  | Some _ => False
  end.

(** ** Reference definitions for the statements about the classifier *)

(** The value under a key of a frame that is an object. *)
Definition tag (k : string) (data : json) : option json :=
  match data with
  | JObj fields => Py.lookup k fields
  | _ => None
  end.

Definition tag_is (k v : string) (data : json) : bool :=
  match tag k data with
  | Some x => Py.is_str x v
  | None => false
  end.

Definition has_tag (k : string) (data : json) : bool :=
  match tag k data with
  | Some _ => true
  | None => false
  end.

(** The four wire shapes, recognized in this order. *)
Inductive shape : Type :=
| MethodShape     (* method = newToken, the event under params *)
| TypeShape       (* type = newToken, the event is the frame *)
| EventShape      (* event = token_created, the event under data *)
| CreateShape.    (* a mint and txType = create, the event is the frame *)

Definition shape_of (data : json) : option shape :=
  if tag_is "method" "newToken" data then Some MethodShape
  else if tag_is "type" "newToken" data then Some TypeShape
  else if tag_is "event" "token_created" data then Some EventShape
  else if has_tag "mint" data && tag_is "txType" "create" data then Some CreateShape
  else None.

(** The part of the frame that holds the event. *)
Definition payload_of (s : shape) (data : json) : option json :=
  match s with
  | MethodShape => tag "params" data
  | EventShape => tag "data" data
  | TypeShape | CreateShape => Some data
  end.

(** An object carries the URI [u] under [uri], or under [metadataUri] when
    it has no [uri]. *)
Definition carries (payload u : json) : Prop :=
  exists fields, payload = JObj fields
    /\ (Py.lookup "uri" fields = Some u
        \/ (Py.lookup "uri" fields = None /\ Py.lookup "metadataUri" fields = Some u)).

(** The metadata URI of the event that a frame announces, if any: the
    argument that the chain passes on, and the URI read from it. *)
Definition event_of (data : json) : option json :=
  match classify data with
  | Ok (Some token_data) =>
      match token_uri token_data with
      | Ok u => Some u
      | Raise => None
      end
  | _ => None
  end.

(** ** Worlds and states of the examples *)

Definition serving (metadata : json) (ok : bool) : world :=
  {| http_get := fun _ => Response 200 (Some metadata); append_ok := ok |}.

(** The file that holds the keys of [ledger], one on each line. *)
Definition file_of (ledger : list string) : string :=
  fold_right (fun key rest => key ++ newline ++ rest) "" ledger.

Definition starting (ledger allow : list string) : state :=
  {| tweet_blacklist := ledger; allowed_accounts := allow;
     blacklist_file := file_of ledger; effects := [] |}.

Definition token (uri : string) : json := JObj [("uri", JStr uri)].

Definition tweet_of (link : string) : json := JObj [("twitter", JStr link)].

(** ** Loading the lists: [load_allowed_accounts], [load_tweet_blacklist], [main] *)

Module PyText.

(** [c.isspace()], on the ASCII range: the codes 9 to 13 and 28 to 32. *)
Definition isspace (c : ascii) : bool :=
  let n := nat_of_ascii c in
  (((9 <=? n) && (n <=? 13)) || ((28 <=? n) && (n <=? 32)))%nat.

Fixpoint lstrip (s : string) : string :=
  match s with
  | "" => ""
  | String c s' => if isspace c then lstrip s' else s
  end.

Fixpoint rstrip (s : string) : string :=
  match s with
  | "" => ""
  | String c s' =>
      match rstrip s' with
      | "" => if isspace c then "" else String c ""
      | r => String c r
      end
  end.

(** [s.strip()] *)
Definition strip (s : string) : string := rstrip (lstrip s).

(** [s.startswith(p)] *)
Definition startswith (p s : string) : bool := prefix p s.

Definition CR : ascii := "013".
Definition LF : ascii := "010".

(** What a file opened in text mode hands over: every line break, ['\r\n'],
    ['\r'] or ['\n'], is read as ['\n'].  [pending] tells that the
    character before was a ['\r'], which swallows a ['\n'] that follows. *)
Fixpoint translate (pending : bool) (s : string) : string :=
  match s with
  | "" => ""
  | String c s' =>
      if Ascii.eqb c CR then String LF (translate true s')
      else if Ascii.eqb c LF then
             if pending then translate false s' else String LF (translate false s')
           else String c (translate false s')
  end.

(** [for line in f]: the lines of a text, each with its line break, the
    last one without when the text does not end with one. *)
Fixpoint lines (s : string) : list string :=
  match s with
  | "" => []
  | String c s' =>
      if Ascii.eqb c LF then String LF "" :: lines s'
      else match lines s' with
           | [] => [String c ""]
           | l :: ls => String c l :: ls
           end
  end.

Definition readlines (text : string) : list string :=
  lines (translate false text).

End PyText.

(** What [open(name, 'r')] finds: no file, a file that cannot be opened or
    read, or the text of the file. *)
Inductive file_read : Type :=
| FileMissing
| FileUnreadable
| Content (text : string).

(** The condition of the comprehension of [load_tweet_blacklist]. *)
Definition blacklist_line (line : string) : bool :=
  negb (String.eqb (PyText.strip line) "") && negb (PyText.startswith "#" line).

(** [load_tweet_blacklist]: only [FileNotFoundError] is handled. *)
Definition load_tweet_blacklist (f : file_read) : exc (list string) :=
  match f with
  | FileMissing => Ok []
  | FileUnreadable => Raise
  | Content text =>
      Ok (map PyText.strip (List.filter blacklist_line (PyText.readlines text)))
  end.

(** [load_allowed_accounts] *)
Definition load_allowed_accounts (f : file_read) : exc (list string) :=
  match f with
  | FileMissing => Ok []
  | FileUnreadable => Raise
  | Content text =>
      Ok (map (fun line => PyStr.lower (PyText.strip line))
            (List.filter (fun line => negb (String.eqb (PyText.strip line) ""))
               (PyText.readlines text)))
  end.



(** ** The connection loop: [run_websocket] and the callbacks *)

(** What [run_forever] calls while a connection lasts. *)
Inductive callback : Type :=
| OnOpen
| OnMessage (w : world) (message : option json)
| OnError
| OnClose.

(** What the bot does to the connection and to the clock. *)
Inductive wire_event : Type :=
| WsSend (text : string)       (* ws.send *)
| Slept (seconds : nat).       (* time.sleep *)

Record bot : Type := {
  core : state;
  wire : list wire_event
}.

(** [json.dumps({"method": "subscribeNewToken"})] *)
Definition subscription : string :=
  "{" ++ String "034" "method" ++ String "034" ": "
      ++ String "034" "subscribeNewToken" ++ String "034" "}".

(** One callback: [on_websocket_open] subscribes, [on_websocket_message]
    handles the frame, [on_websocket_error] and [on_websocket_close] log. *)
Definition dispatch (b : bot) (c : callback) : bot :=
  match c with
  | OnOpen => {| core := core b; wire := wire b ++ [WsSend subscription] |}
  | OnMessage w message =>
      {| core := snd (on_websocket_message w (core b) message); wire := wire b |}
  | OnError => b
  | OnClose => b
  end.

(** One turn of the loop of [run_websocket]: the connection with its
    callbacks, until [run_forever] returns or raises, which is logged, and
    the sleep of ten seconds before the next turn. *)
Definition connection (b : bot) (session : list callback) : bot :=
  let b1 := fold_left dispatch session b in
  {| core := core b1; wire := wire b1 ++ [Slept 10] |}.

(** The loop, for the connections that have ended so far. *)
Definition run_websocket (b : bot) (sessions : list (list callback)) : bot :=
  fold_left connection sessions b.

(** ** Reference definitions for the statements about the lists and the runs *)

(** The characters of an extracted account. *)
Definition account_char (c : ascii) : bool :=
  let n := nat_of_ascii c in
  (((48 <=? n) && (n <=? 57)) || ((97 <=? n) && (n <=? 122)) || (n =? 95))%nat.

(** All the characters of [s] satisfy [p]. *)
Fixpoint all_chars (p : ascii -> bool) (s : string) : bool :=
  match s with
  | "" => true
  | String c s' => p c && all_chars p s'
  end.


(** The lines [ls], each followed by a line break. *)
Definition render (ls : list string) : string :=
  fold_right (fun l rest => l ++ newline ++ rest) "" ls.


(** The key under which a call of the sink was recorded. *)
Definition key_of_send (s : json * string) : string :=
  dedup_key (text (extract_tweet_id (fst s))) (snd s).

Definition sent_keys (st : state) : list string :=
  map key_of_send (sent (effects st)).

(** The frames of the messages among some callbacks. *)
Definition frames_of (session : list callback) : list (world * option json) :=
  flat_map (fun c => match c with OnMessage w m => [(w, m)] | _ => [] end) session.



(** A frame is quiet when it changes neither the lists nor the file and
    calls no sink. *)
Definition quiet (st st' : state) : Prop :=
  tweet_blacklist st' = tweet_blacklist st
  /\ allowed_accounts st' = allowed_accounts st
  /\ blacklist_file st' = blacklist_file st
  /\ sent (effects st') = sent (effects st)
  /\ written (effects st') = written (effects st).

(** The sleeps of ten seconds and the subscriptions among what the bot
    did to the connection, and the openings among some callbacks. *)
Definition sleeps (es : list wire_event) : nat :=
  List.length (List.filter (fun e => match e with Slept 10 => true | _ => false end) es).

Definition subscriptions (es : list wire_event) : nat :=
  List.length
    (List.filter (fun e => match e with
                           | WsSend t => String.eqb t subscription
                           | _ => false
                           end) es).

Definition openings (session : list callback) : nat :=
  List.length (List.filter (fun c => match c with OnOpen => true | _ => false end) session).

(** * Examples of the primitives and of the link parser *)

Example split_slash :
  PyStr.split "/" "https://x.com/alice" = ["https:"; ""; "x.com"; "alice"].
Proof. reflexivity. Qed.

Example split_status :
  PyStr.split "/status/" "a/status/b/status/" = ["a"; "b"; ""].
Proof. reflexivity. Qed.

Example split_absent : PyStr.split "#" "abc" = ["abc"].
Proof. reflexivity. Qed.

Example account_plain :
  extract_account_name (JStr "https://x.com/Alice_1/status/999?x=1#y") = Some "alice_1".
Proof. reflexivity. Qed.

Example account_twitter :
  extract_account_name (JStr "https://twitter.com/El.on-M") = Some "elonm".
Proof. reflexivity. Qed.

Example tweet_id_plain :
  extract_tweet_id (JStr "https://x.com/Alice_1/status/999?x=1#y") = Some "999".
Proof. reflexivity. Qed.

Example tweet_id_profile : extract_tweet_id (JStr "https://x.com/alice") = None.
Proof. reflexivity. Qed.

Example account_not_text : extract_account_name (JInt 5) = None.
Proof. reflexivity. Qed.

(** A frame announcing a token whose metadata link to a tweet of an allowed
    account, received twice: one line in the file, one key in the ledger,
    one call of the sink. *)
Example received_twice :
  let w := serving (tweet_of "https://x.com/alice/status/999") true in
  let frame := JObj [("mint", JStr "abc"); ("txType", JStr "create");
                     ("uri", JStr "https://meta.example/1")] in
  let st := receive (starting [] ["alice"]) [(w, Some frame); (w, Some frame)] in
  tweet_blacklist st = ["999|alice"]
  /\ blacklist_file st = "999|alice" ++ newline
  /\ sent (effects st) = [(JStr "https://x.com/alice/status/999", "alice")].
Proof. repeat split. Qed.

(** Frames that the chain does not take, or that make it raise. *)
Example frames_dropped :
  let w := serving (tweet_of "https://x.com/alice/status/999") true in
  let st := starting [] ["alice"] in
  on_websocket_message w st (Some (JObj [("method", JStr "subscribed")])) = (Ignored, st)
  /\ on_websocket_message w st (Some (JObj [("method", JStr "newToken")])) = (FrameError, st)
  /\ on_websocket_message w st (Some (JStr "a method")) = (FrameError, st)
  /\ on_websocket_message w st (Some (JInt 7)) = (FrameError, st)
  /\ on_websocket_message w st None = (FrameError, st).
Proof. repeat split. Qed.

(** * Facts about the string primitives *)

Module PyStrFacts.
Import PyStr.

Lemma append_nil_r (s : string) : s ++ "" = s.
Proof. induction s as [|c s IH]; simpl; [reflexivity | now rewrite IH]. Qed.

Lemma append_assoc (a b c : string) : (a ++ b) ++ c = a ++ b ++ c.
Proof. induction a as [|x a IH]; simpl; [reflexivity | now rewrite IH]. Qed.

Lemma length_append (a b : string) :
  String.length (a ++ b) = String.length a + String.length b.
Proof. induction a as [|x a IH]; simpl; [reflexivity | now rewrite IH]. Qed.

Lemma prefix_cons (c d : ascii) (p s : string) :
  prefix (String c p) (String d s) = Ascii.eqb c d && prefix p s.
Proof.
  simpl. destruct (ascii_dec c d) as [->|Hne].
  - now rewrite Ascii.eqb_refl.
  - apply Ascii.eqb_neq in Hne. now rewrite Hne.
Qed.

Lemma prefix_nil_l (s : string) : prefix "" s = true.
Proof. now destruct s. Qed.

Lemma prefix_append (sep r : string) : prefix sep (sep ++ r) = true.
Proof.
  induction sep as [|c sep IH]; simpl app.
  - apply prefix_nil_l.
  - simpl append. rewrite prefix_cons, Ascii.eqb_refl. exact IH.
Qed.

Lemma drop_append (sep r : string) : drop (String.length sep) (sep ++ r) = r.
Proof. induction sep as [|c sep IH]; simpl; [reflexivity | exact IH]. Qed.

(** A string that starts with [sep] is [sep] followed by what [drop] keeps. *)
Lemma prefix_true (sep s : string) :
  prefix sep s = true -> s = sep ++ drop (String.length sep) s.
Proof.
  revert s. induction sep as [|c sep IH]; intros s H.
  - reflexivity.
  - destruct s as [|d s]; [discriminate|].
    rewrite prefix_cons in H. apply andb_true_iff in H as [Hc Hp].
    apply Ascii.eqb_eq in Hc. subst d. simpl. f_equal. now apply IH.
Qed.

(** Inside a string at least as long as [sep], what follows it is not
    looked at. *)
Lemma prefix_app_long (sep s t : string) :
  String.length sep <= String.length s -> prefix sep (s ++ t) = prefix sep s.
Proof.
  revert s. induction sep as [|c sep IH]; intros s Hlen.
  - now rewrite !prefix_nil_l.
  - destruct s as [|d s]; simpl in Hlen; [lia|].
    simpl append. rewrite !prefix_cons. f_equal. apply IH. lia.
Qed.

Lemma partition_eq (sep s : string) :
  partition sep s =
  if prefix sep s then Some ("", drop (String.length sep) s)
  else match s with
       | "" => None
       | String c s' =>
           match partition sep s' with
           | Some (b, a) => Some (String c b, a)
           | None => None
           end
       end.
Proof. now destruct s. Qed.

(** [partition] cuts the string where it says. *)
Lemma partition_sound (sep s b a : string) :
  partition sep s = Some (b, a) -> s = b ++ sep ++ a.
Proof.
  revert b a. induction s as [|c s IH]; intros b a H; rewrite partition_eq in H.
  - destruct (prefix sep "") eqn:Hp; [|discriminate].
    injection H as <- <-. now apply prefix_true.
  - destruct (prefix sep (String c s)) eqn:Hp.
    + injection H as <- <-. now apply prefix_true.
    + destruct (partition sep s) as [[b' a']|] eqn:Hs; [|discriminate].
      injection H as <- <-. simpl. f_equal. now apply IH.
Qed.

(** [partition] finds an occurrence whenever there is one. *)
Lemma partition_complete (sep a b : string) :
  partition sep (a ++ sep ++ b) <> None.
Proof.
  induction a as [|c a IH]; simpl append; rewrite partition_eq.
  - now rewrite prefix_append.
  - destruct (prefix sep (String c (a ++ sep ++ b))); [discriminate|].
    destruct (partition sep (a ++ sep ++ b)) as [[b' a']|]; [discriminate|].
    now elim IH.
Qed.

Lemma partition_shorter (sep s b a : string) :
  sep <> "" -> partition sep s = Some (b, a) -> String.length a < String.length s.
Proof.
  intros Hsep H. apply partition_sound in H. subst s.
  rewrite !length_append. destruct sep; [contradiction|]. simpl. lia.
Qed.

Lemma partition_nil (sep : string) : sep <> "" -> partition sep "" = None.
Proof. destruct sep; [contradiction | reflexivity]. Qed.

(** The first occurrence stays the first one when the string is extended. *)
Lemma partition_app (sep s t b a : string) :
  partition sep s = Some (b, a) -> partition sep (s ++ t) = Some (b, a ++ t).
Proof.
  revert b a. induction s as [|c s IH]; intros b a H.
  - rewrite partition_eq in H.
    destruct (prefix sep "") eqn:Hp; [|discriminate].
    injection H as <- <-. destruct sep; [|discriminate].
    simpl. rewrite partition_eq, prefix_nil_l. reflexivity.
  - assert (Hlen : String.length sep <= String.length (String c s)).
    { apply partition_sound in H. rewrite H, !length_append. lia. }
    rewrite partition_eq in H.
    change (String c s ++ t) with (String c (s ++ t)).
    rewrite partition_eq.
    change (String c (s ++ t)) with (String c s ++ t).
    rewrite (prefix_app_long _ _ t Hlen).
    destruct (prefix sep (String c s)) eqn:Hp.
    + injection H as <- <-. f_equal. f_equal.
      pose proof (prefix_true _ _ Hp) as E.
      rewrite E at 1. rewrite append_assoc, !drop_append. reflexivity.
    + destruct (partition sep s) as [[b' a']|] eqn:Hs; [|discriminate].
      injection H as <- <-. simpl append. now rewrite (IH _ _ eq_refl).
Qed.

(** With enough fuel the result of [split_fuel] does not depend on it. *)
Lemma split_fuel_enough (sep : string) (n m : nat) (s : string) :
  sep <> "" -> String.length s <= n -> String.length s <= m ->
  split_fuel n sep s = split_fuel m sep s.
Proof.
  intros Hsep. revert m s. induction n as [|n IH]; intros m s Hn Hm.
  - destruct s; simpl in Hn; [|lia].
    destruct m; cbn [split_fuel]; [reflexivity | now rewrite partition_nil].
  - destruct m as [|m].
    + destruct s; simpl in Hm; [|lia]. cbn [split_fuel]. now rewrite partition_nil.
    + cbn [split_fuel]. destruct (partition sep s) as [[b a]|] eqn:Hp; [|reflexivity].
      apply partition_shorter in Hp; [|assumption].
      f_equal. apply IH; lia.
Qed.

(** The equation of [str.split]. *)
Lemma split_eq (sep s : string) :
  sep <> "" ->
  split sep s =
  match partition sep s with
  | None => [s]
  | Some (b, a) => b :: split sep a
  end.
Proof.
  intros Hsep. unfold split. destruct s as [|c s].
  - rewrite partition_nil by assumption. reflexivity.
  - cbn [String.length split_fuel].
    destruct (partition sep (String c s)) as [[b a]|] eqn:Hp; [|reflexivity].
    f_equal. apply partition_shorter in Hp; [|assumption].
    simpl in Hp. apply split_fuel_enough; [assumption | lia | lia].
Qed.

Lemma split_not_nil (sep s : string) : split sep s <> [].
Proof. unfold split. destruct (String.length s); simpl; [discriminate|].
  destruct (partition sep s) as [[b a]|]; discriminate. Qed.

End PyStrFacts.

Module SplitFacts.
Import PyStr PyStrFacts.

Lemma has_char_app (c : ascii) (a b : string) :
  has_char c (a ++ b) = has_char c a || has_char c b.
Proof.
  induction a as [|d a IH]; simpl; [reflexivity|].
  now rewrite IH, orb_assoc.
Qed.

Lemma partition_char_cons (c d : ascii) (s : string) :
  partition (String c "") (String d s) =
  if Ascii.eqb c d then Some ("", s)
  else match partition (String c "") s with
       | Some (b, a) => Some (String d b, a)
       | None => None
       end.
Proof.
  rewrite partition_eq, prefix_cons, prefix_nil_l, andb_true_r.
  now destruct (Ascii.eqb c d).
Qed.

Lemma partition_char_before (c : ascii) (s : string) :
  match partition (String c "") s with
  | Some (b, _) => b
  | None => s
  end = before_char c s.
Proof.
  induction s as [|d s IH]; [reflexivity|].
  rewrite partition_char_cons. simpl.
  destruct (Ascii.eqb c d); [reflexivity|].
  destruct (partition (String c "") s) as [[b a]|]; now rewrite <- IH.
Qed.


(** [s.split(sep)[0]] *)
Lemma head_split (sep s : string) :
  sep <> "" ->
  index (split sep s) 0 =
  Ok (match partition sep s with Some (b, _) => b | None => s end).
Proof.
  intros Hsep. rewrite split_eq by assumption.
  now destruct (partition sep s) as [[b a]|].
Qed.

Lemma head_split_char (c : ascii) (s : string) :
  index (split (String c "") s) 0 = Ok (before_char c s).
Proof. rewrite head_split by discriminate. now rewrite partition_char_before. Qed.


(** The head of a split is a prefix of the string. *)
Lemma head_split_prefix (sep s x : string) :
  sep <> "" -> index (split sep s) 0 = Ok x -> exists r, s = x ++ r.
Proof.
  intros Hsep H. rewrite head_split in H by assumption.
  injection H as <-.
  destruct (partition sep s) as [[b a]|] eqn:Hp.
  - apply partition_sound in Hp. now exists (sep ++ a).
  - exists "". now rewrite append_nil_r.
Qed.








End SplitFacts.

(** * The link parser *)

Module ParserFacts.
Import PyStr PyStrFacts SplitFacts.

(** The segments of a text, its last one apart, are segments of every
    extension of the text. *)
Lemma inner_segments_app (sep x b : string) (n : nat) :
  sep <> "" ->
  forall a, String.length a <= n ->
  In x (removelast (split sep a)) -> In x (split sep (a ++ b)).
Proof.
  intros Hsep. induction n as [|n IH]; intros a Hlen Hin.
  - destruct a; simpl in Hlen; [|lia].
    rewrite split_eq, partition_nil in Hin by assumption. destruct Hin.
  - rewrite split_eq in Hin by assumption.
    destruct (partition sep a) as [[p q]|] eqn:Hp; [|destruct Hin].
    rewrite split_eq, (partition_app _ _ b _ _ Hp) by assumption.
    pose proof (partition_shorter _ _ _ _ Hsep Hp) as Hq.
    destruct (split sep q) as [|y ys] eqn:Hs; [now apply split_not_nil in Hs|].
    cbn [removelast] in Hin. destruct Hin as [<-|Hin]; [now left|].
    right. apply IH; [lia|]. now rewrite Hs.
Qed.

(** The loop returns an account only after a host that is not the last
    segment. *)
Lemma find_account_host (parts : list string) (r : string) :
  find_account parts = Some r ->
  exists h, In h (removelast parts) /\ is_host h = true.
Proof.
  induction parts as [|part rest IH]; [discriminate|].
  destruct rest as [|next rest']; [discriminate|].
  cbn [find_account]. destruct (is_host part) eqn:Hh; intros H.
  - exists part. split; [now left | assumption].
  - destruct (IH H) as (h & Hin & Hhost). exists h. split; [|assumption].
    cbn [removelast]. right. exact Hin.
Qed.

(** The two cuts of [extract_account_name] keep a prefix of the link. *)
Lemma cut_prefix (sep s : string) :
  sep <> "" ->
  exists l r,
    (if contains sep s then index (split sep s) 0 else Ok s) = Ok l
    /\ s = l ++ r.
Proof.
  intros Hsep. destruct (contains sep s).
  - rewrite head_split by assumption.
    destruct (partition sep s) as [[b a]|] eqn:Hp.
    + exists b, (sep ++ a). split; [reflexivity | now apply partition_sound].
    + exists s, "". split; [reflexivity | now rewrite append_nil_r].
  - exists s, "". split; [reflexivity | now rewrite append_nil_r].
Qed.

Lemma account_none (url : string) :
  ~ has_host_segment url -> extract_account_name_str url = Ok None.
Proof.
  intros Hno. unfold extract_account_name_str.
  destruct (cut_prefix "#" url) as (l1 & r1 & -> & E1); [discriminate|].
  cbn [bind].
  destruct (cut_prefix "/status/" l1) as (l2 & r2 & -> & E2); [discriminate|].
  cbn [bind]. f_equal.
  destruct (find_account (split "/" l2)) as [r|] eqn:Hf; [|reflexivity].
  exfalso. apply Hno.
  destruct (find_account_host _ _ Hf) as (h & Hin & Hhost).
  exists h. split; [|assumption].
  rewrite E1, E2, append_assoc.
  apply (inner_segments_app "/" h (r2 ++ r1) (String.length l2));
    [discriminate | lia | assumption].
Qed.

Lemma contains_marker (sep s : string) :
  contains sep s = true <-> exists a b, s = a ++ sep ++ b.
Proof.
  unfold contains. split.
  - destruct (partition sep s) as [[b a]|] eqn:Hp; [|discriminate].
    intros _. exists b, a. now apply partition_sound.
  - intros (a & b & ->).
    pose proof (partition_complete sep a b) as H.
    now destruct (partition sep (a ++ sep ++ b)).
Qed.

Lemma tweet_id_none (url : string) :
  ~ has_status_marker url -> extract_tweet_id_str url = Ok None.
Proof.
  intros Hno. unfold extract_tweet_id_str.
  destruct (contains "/status/" url) eqn:Hc; [|reflexivity].
  exfalso. apply Hno. now apply contains_marker.
Qed.

End ParserFacts.

(** C9 - Parser None on unrecognized input: a link without a path segment
    equal to [x.com] or [twitter.com] makes [extract_account_name] return
    [None], and a link without the text [/status/] makes [extract_tweet_id]
    return [None]; in both cases the body of the function ends without an
    exception. *)
Theorem parser_none_on_unrecognized (url : string) :
  (~ has_host_segment url ->
   extract_account_name_str url = Ok None
   /\ extract_account_name (JStr url) = None)
  /\ (~ has_status_marker url ->
      extract_tweet_id_str url = Ok None
      /\ extract_tweet_id (JStr url) = None).
Proof.
  split; intros H.
  - pose proof (ParserFacts.account_none url H) as E.
    split; [exact E|]. cbn [extract_account_name]. now rewrite E.
  - pose proof (ParserFacts.tweet_id_none url H) as E.
    split; [exact E|]. cbn [extract_tweet_id]. now rewrite E.
Qed.

Lemma parser_none_on_unrecognized_witness :
  ~ has_host_segment "https://example.com/alice"
  /\ ~ has_status_marker "https://example.com/alice"
  /\ extract_account_name (JStr "https://example.com/alice") = None
  /\ extract_tweet_id (JStr "https://example.com/alice") = None.
Proof.
  assert (Hh : ~ has_host_segment "https://example.com/alice").
  { intros (seg & Hin & Hhost). vm_compute in Hin.
    repeat (destruct Hin as [<-|Hin]; [vm_compute in Hhost; discriminate|]).
    exact Hin. }
  assert (Hm : ~ has_status_marker "https://example.com/alice").
  { intros Hm. apply ParserFacts.contains_marker in Hm.
    vm_compute in Hm. discriminate. }
  destruct (parser_none_on_unrecognized "https://example.com/alice") as [Ha Ht].
  split; [exact Hh|]. split; [exact Hm|].
  split; [apply (Ha Hh) | apply (Ht Hm)].
Defined.

Module RoundTrip.
Import PyStr PyStrFacts SplitFacts.









End RoundTrip.




(** * The pipeline *)

Module GateFacts.


(** The resolver leaves the lists and the file alone, and performs at most
    one request. *)
Lemma get_token_links_state (w : world) (st : state) (uri : json) :
  let st1 := snd (get_token_links w st uri) in
  tweet_blacklist st1 = tweet_blacklist st
  /\ allowed_accounts st1 = allowed_accounts st
  /\ blacklist_file st1 = blacklist_file st
  /\ (effects st1 = effects st
      \/ exists u, uri = JStr u /\ effects st1 = (effects st ++ [EvGet u])%list).
Proof.
  unfold get_token_links, get_token_links_try.
  destruct (Py.truthy uri); cbn [negb]; [|cbn; auto].
  destruct uri; cbn [request];
    try (cbn; repeat split; auto; fail).
  assert (Hr : forall (r : links * exc unit * state),
            snd r = emit (EvGet s) st ->
            let st1 := snd (let '(l, _, st1) := r in (l, st1)) in
            tweet_blacklist st1 = tweet_blacklist st
            /\ allowed_accounts st1 = allowed_accounts st
            /\ blacklist_file st1 = blacklist_file st
            /\ (effects st1 = effects st
                \/ exists u, JStr s = JStr u /\ effects st1 = (effects st ++ [EvGet u])%list)).
  { intros [[l e] st1] E. cbn in E. subst st1. cbn.
    repeat split. right. now exists s. }
  apply Hr.
  destruct (http_get w s) as [| |code [body|]]; try reflexivity;
    destruct (Z.eqb code 200); try reflexivity.
  destruct (update_from_properties body default_links) as [l1|]; try reflexivity.
  now destruct (update_from_metadata body l1).
Qed.


Lemma not_absent (x : option string) : Py.not_ x = absent x.
Proof. destruct x as [[|c s]|]; reflexivity. Qed.

(** The decision of [process_token] is the gate on the resolved link. *)
Lemma process_uri_gate (w : world) (st : state) (uri : json) :
  fst (process_uri w st uri)
  = gate (resolved_link w st uri) (tweet_blacklist st) (allowed_accounts st).
Proof.
  unfold process_uri, resolved_link, gate.
  pose proof (get_token_links_state w st uri) as (Hb & Ha & _).
  destruct (get_token_links w st uri) as [l st1]. cbn [fst snd] in *.
  rewrite Hb, Ha.
  destruct (Py.is_str (twitter l) unavailable); [reflexivity|].
  rewrite !not_absent.
  destruct (extract_account_name (twitter l)) as [a|];
    destruct (extract_tweet_id (twitter l)) as [m|].
  - destruct (absent (Some a) || absent (Some m)); [reflexivity|].
    cbn [text]. unfold dedup_key.
    destruct (PyStr.mem (m ++ "|" ++ a) (tweet_blacklist st)); [reflexivity|].
    now destruct (PyStr.mem a (allowed_accounts st)).
  - cbn [absent]. now rewrite orb_true_r.
  - reflexivity.
  - reflexivity.
Qed.

End GateFacts.

Module PipelineFacts.
Import GateFacts.

Lemma mem_In (x : string) (l : list string) : PyStr.mem x l = true <-> In x l.
Proof.
  unfold PyStr.mem. rewrite existsb_exists. split.
  - intros (y & Hin & E). apply String.eqb_eq in E. now subst y.
  - intros Hin. exists x. split; [assumption | apply String.eqb_refl].
Qed.

Lemma sent_app (es es' : list event) : sent (es ++ es') = (sent es ++ sent es')%list.
Proof. apply flat_map_app. Qed.

Lemma written_app (es es' : list event) :
  written (es ++ es') = (written es ++ written es')%list.
Proof. apply flat_map_app. Qed.

(** Resolving sends nothing and writes nothing. *)
Lemma get_token_links_quiet (w : world) (st : state) (uri : json) :
  sent (effects (snd (get_token_links w st uri))) = sent (effects st)
  /\ written (effects (snd (get_token_links w st uri))) = written (effects st).
Proof.
  destruct (get_token_links_state w st uri) as (_ & _ & _ & [E | (u & _ & E)]);
    rewrite E; [now split|].
  rewrite sent_app, written_app. cbn. now rewrite !app_nil_r.
Qed.


(** What the gate has established when it accepts. *)
Lemma gate_accept (l : json) (ledger allow : list string) (a m : string) :
  gate l ledger allow = Accept a m ->
  extract_account_name l = Some a /\ extract_tweet_id l = Some m
  /\ absent (Some a) = false /\ absent (Some m) = false
  /\ PyStr.mem (dedup_key m a) ledger = false
  /\ PyStr.mem a allow = true.
Proof.
  unfold gate. destruct (Py.is_str l unavailable); [discriminate|].
  destruct (extract_account_name l) as [a'|]; [|discriminate].
  destruct (extract_tweet_id l) as [m'|]; [|discriminate].
  destruct (absent (Some a') || absent (Some m')) eqn:Habs; [discriminate|].
  apply orb_false_iff in Habs as [Ha Hm].
  destruct (PyStr.mem (dedup_key m' a') ledger) eqn:Hk; [discriminate|].
  destruct (PyStr.mem a' allow) eqn:Hal; [|discriminate].
  intros [= <- <-]. repeat split; assumption.
Qed.


(** The state after [process_token]: untouched by a rejection apart from
    the request; on acceptance the save, then the hand-over to the sink. *)
Lemma process_uri_state (w : world) (st : state) (uri : json) :
  let st1 := snd (get_token_links w st uri) in
  match fst (process_uri w st uri) with
  | Accept a m =>
      snd (process_uri w st uri)
      = emit (EvSend (resolved_link w st uri) a) (save_to_blacklist w st1 m a)
  | Reject _ => snd (process_uri w st uri) = st1
  end.
Proof.
  unfold process_uri, resolved_link.
  destruct (get_token_links w st uri) as [l st1]. cbn [fst snd].
  destruct (Py.is_str (twitter l) unavailable); [reflexivity|].
  destruct (Py.not_ (extract_account_name (twitter l))
            || Py.not_ (extract_tweet_id (twitter l))); [reflexivity|].
  destruct (PyStr.mem _ (tweet_blacklist st1)); [reflexivity|].
  now destruct (PyStr.mem _ (allowed_accounts st1)).
Qed.

Lemma process_uri_reject (w : world) (st : state) (uri : json) (r : reason) :
  fst (process_uri w st uri) = Reject r ->
  snd (process_uri w st uri) = snd (get_token_links w st uri).
Proof. intros H. pose proof (process_uri_state w st uri) as S. now rewrite H in S. Qed.

Lemma process_uri_accept (w : world) (st : state) (uri : json) (a m : string) :
  fst (process_uri w st uri) = Accept a m ->
  snd (process_uri w st uri)
  = emit (EvSend (resolved_link w st uri) a)
      (save_to_blacklist w (snd (get_token_links w st uri)) m a).
Proof. intros H. pose proof (process_uri_state w st uri) as S. now rewrite H in S. Qed.





End PipelineFacts.

(** C2 - Filter gate evaluation order: the decision of [process_token] on
    an event is [gate] on the link that the resolver returns: the sentinel
    gives NoSocialLink; otherwise an absent account or message id (none, or
    empty, as the test [not account_name or not tweet_id] reads it) gives
    UnparsableLink; otherwise a key in the ledger gives AlreadyProcessed;
    otherwise an account outside the allow-list gives AccountNotAllowed;
    otherwise the event is accepted with its account and message id. *)
Theorem gate_evaluation_order (w : world) (st : state) :
  (forall uri,
      fst (process_uri w st uri)
      = gate (resolved_link w st uri) (tweet_blacklist st) (allowed_accounts st))
  /\ (forall fields, exists uri,
         token_uri (JObj fields) = Ok uri
         /\ fst (process_token w st (JObj fields))
            = Some (gate (resolved_link w st uri)
                      (tweet_blacklist st) (allowed_accounts st))).
Proof.
  split.
  - apply GateFacts.process_uri_gate.
  - intros fields.
    exists (match Py.lookup "uri" fields with
            | Some x => x
            | None => match Py.lookup "metadataUri" fields with
                      | Some x => x
                      | None => JStr ""
                      end
            end).
    split; [reflexivity|].
    unfold process_token. cbn [token_uri Py.get bind].
    rewrite <- GateFacts.process_uri_gate.
    now destruct (process_uri w st _).
Qed.




Module DedupFacts.
Import GateFacts PipelineFacts.



End DedupFacts.



Module CommitFacts.
Import GateFacts PipelineFacts.

Lemma save_sent (w : world) (st : state) (m a : string) :
  sent (effects (save_to_blacklist w st m a)) = sent (effects st).
Proof.
  unfold save_to_blacklist, emit. destruct (append_ok w); cbn [effects];
    rewrite sent_app; cbn; now rewrite app_nil_r.
Qed.

(** An acceptance calls the sink once. *)
Lemma accept_sent (w : world) (st : state) (uri : json) (a m : string) :
  fst (process_uri w st uri) = Accept a m ->
  sent (effects (snd (process_uri w st uri)))
  = (sent (effects st) ++ [(resolved_link w st uri, a)])%list.
Proof.
  intros H. rewrite (process_uri_accept _ _ _ _ _ H).
  unfold emit. cbn [effects]. rewrite sent_app, save_sent.
  destruct (get_token_links_quiet w st uri) as [-> _]. reflexivity.
Qed.


Lemma count_char_app (c : ascii) (a b : string) :
  count_char c (a ++ b) = count_char c a + count_char c b.
Proof. induction a as [|d a IH]; cbn; [reflexivity | rewrite IH; lia]. Qed.

Lemma count_char_absent (c : ascii) (s : string) :
  PyStr.has_char c s = false -> count_char c s = 0.
Proof.
  induction s as [|d s IH]; cbn; [reflexivity|]. intros H.
  apply orb_false_iff in H as [-> H]. now rewrite IH.
Qed.

Lemma filter_keeps (keep : ascii -> bool) (c : ascii) (s : string) :
  keep c = false -> PyStr.has_char c (PyStr.filter keep s) = false.
Proof.
  intros Hc. induction s as [|d s IH]; cbn; [reflexivity|].
  destruct (keep d) eqn:Hd; [|exact IH]. cbn. rewrite IH, orb_false_r.
  apply Ascii.eqb_neq. intros ->. congruence.
Qed.

Lemma find_account_clean (parts : list string) (a : string) (c : ascii) :
  find_account parts = Some a -> clean c = false -> PyStr.has_char c a = false.
Proof.
  induction parts as [|part rest IH]; [discriminate|].
  destruct rest as [|next rest']; [discriminate|].
  cbn [find_account]. destruct (is_host part).
  - intros [= <-] Hc. now apply filter_keeps.
  - exact IH.
Qed.

(** An extracted account holds no character that the cleaning removes. *)
Lemma account_clean (l : json) (a : string) (c : ascii) :
  extract_account_name l = Some a -> clean c = false -> PyStr.has_char c a = false.
Proof.
  destruct l; try discriminate. cbn [extract_account_name].
  unfold extract_account_name_str.
  destruct (if PyStr.contains "#" s then _ else _) as [l1|]; [|discriminate].
  cbn [bind].
  destruct (if PyStr.contains "/status/" l1 then _ else _) as [l2|]; [|discriminate].
  cbn [bind catch_none]. apply find_account_clean.
Qed.

(** The text of an accepted key, with its line break, is one line when the
    message id has no line break. *)
Lemma key_one_line (l : json) (a m : string) :
  extract_account_name l = Some a ->
  PyStr.has_char "010" m = false ->
  count_char "010" (dedup_key m a ++ newline) = 1.
Proof.
  intros Ha Hm. unfold dedup_key.
  rewrite !count_char_app, (count_char_absent _ _ Hm).
  now rewrite (count_char_absent _ _ (account_clean l a "010" Ha eq_refl)).
Qed.

End CommitFacts.

(** C4, as stated, fails when the append to the file raises: the event is
    accepted and handed to the sink, and no line is written and no key
    recorded. *)
Lemma accept_without_line_on_failed_append :
  let w := serving (tweet_of "https://x.com/alice/status/999") false in
  let st := starting [] ["alice"] in
  let r := process_token w st (token "https://meta.example/1") in
  fst r = Some (Accept "alice" "999")
  /\ blacklist_file (snd r) = ""
  /\ tweet_blacklist (snd r) = []
  /\ written (effects (snd r)) = []
  /\ sent (effects (snd r)) = [(JStr "https://x.com/alice/status/999", "alice")].
Proof. repeat split. Qed.

(** C4 - Accept side-effect ordering, amended: for every accepted event
    nothing is written or sent before the decision; [save_to_blacklist]
    runs after the decision and before [send_tweet] is handed to the sink;
    and when its append succeeds it adds exactly the text
    [message_id|account] and a line break to the file, which is one line
    when the message id holds no line break, and the same key to the
    ledger in memory, both before the sink is called. *)
Theorem accept_side_effect_order (w : world) (st : state) (uri : json)
    (account message_id : string) :
  fst (process_uri w st uri) = Accept account message_id ->
  let st1 := snd (get_token_links w st uri) in
  let st' := snd (process_uri w st uri) in
  let key := dedup_key message_id account in
  let link := resolved_link w st uri in
  (sent (effects st1) = sent (effects st)
   /\ written (effects st1) = written (effects st))
  /\ (exists attempt,
         effects st' = (effects st1 ++ attempt ++ [EvSend link account])%list
         /\ (attempt = [EvWrite (key ++ newline); EvRemember key]
             \/ attempt = [EvWriteFailed (key ++ newline)]))
  /\ (append_ok w = true ->
      effects st'
      = (effects st1
         ++ [EvWrite (key ++ newline); EvRemember key; EvSend link account])%list
      /\ blacklist_file st' = blacklist_file st ++ key ++ newline
      /\ tweet_blacklist st' = (tweet_blacklist st ++ [key])%list
      /\ (PyStr.has_char "010" message_id = false ->
          count_char "010" (key ++ newline) = 1)).
Proof.
  intros H. cbn zeta.
  assert (Hacc : extract_account_name (resolved_link w st uri) = Some account).
  { rewrite GateFacts.process_uri_gate in H.
    now apply PipelineFacts.gate_accept in H as (Ha & _). }
  rewrite (PipelineFacts.process_uri_accept _ _ _ _ _ H).
  destruct (GateFacts.get_token_links_state w st uri) as (Hb & _ & Hf & _).
  split; [apply PipelineFacts.get_token_links_quiet|].
  unfold save_to_blacklist, emit.
  fold (dedup_key message_id account).
  destruct (append_ok w); cbn [effects blacklist_file tweet_blacklist]; split.
  - exists [EvWrite (dedup_key message_id account ++ newline);
            EvRemember (dedup_key message_id account)].
    split; [now rewrite <- app_assoc | now left].
  - intros _. rewrite <- app_assoc, Hb, Hf.
    split; [reflexivity|]. split; [reflexivity|]. split; [reflexivity|].
    exact (CommitFacts.key_one_line _ _ _ Hacc).
  - exists [EvWriteFailed (dedup_key message_id account ++ newline)].
    split; [now rewrite <- app_assoc | now right].
  - discriminate.
Qed.

Lemma accept_side_effect_order_witness :
  let w := serving (tweet_of "https://x.com/alice/status/999") true in
  let st := starting ["1|alice"] ["alice"] in
  let st' := snd (process_uri w st (JStr "https://meta.example/1")) in
  fst (process_uri w st (JStr "https://meta.example/1")) = Accept "alice" "999"
  /\ append_ok w = true
  /\ effects st'
     = [EvGet "https://meta.example/1"; EvWrite ("999|alice" ++ newline);
        EvRemember "999|alice";
        EvSend (JStr "https://x.com/alice/status/999") "alice"]
  /\ blacklist_file st' = "1|alice" ++ newline ++ "999|alice" ++ newline
  /\ tweet_blacklist st' = ["1|alice"; "999|alice"]
  /\ (PyStr.has_char "010" "999" = false ->
      count_char "010" ("999|alice" ++ newline) = 1).
Proof.
  intros w st st'.
  split; [reflexivity|]. split; [reflexivity|].
  exact (proj2 (proj2 (accept_side_effect_order w st (JStr "https://meta.example/1")
                         "alice" "999" eq_refl)) eq_refl).
Defined.



(** * The resolver *)

Module ResolverFacts.

(** An exception in the second update can only follow a first update that
    changed nothing. *)
Lemma updates_raise (metadata : json) (l l1 : links) :
  update_from_properties metadata l = Ok l1 ->
  update_from_metadata metadata l1 = Raise ->
  l1 = l.
Proof.
  destruct metadata; try discriminate.
  - unfold update_from_properties. cbn.
    destruct (PyStr.contains "properties" s); cbn; [discriminate|]. now intros [= <-].
  - unfold update_from_properties. cbn.
    destruct (existsb _ l0); cbn; [discriminate|]. now intros [= <-].
Qed.

(** Whenever the [try] block is left by an exception, the dict still holds
    what it held on entry. *)
Lemma try_raise (w : world) (st st' : state) (uri : json) (l0 l : links) :
  get_token_links_try w st uri l0 = (l, Raise, st') -> l = l0.
Proof.
  unfold get_token_links_try.
  destruct (Py.truthy uri); cbn [negb]; [|discriminate].
  destruct (request w st uri) as [r st1].
  destruct r as [| |code [metadata|]]; try (now intros [= <- _]);
    destruct (Z.eqb code 200); try discriminate; try (now intros [= <- _]).
  destruct (update_from_properties metadata l0) as [l1|] eqn:E1;
    [|now intros [= <- _]].
  destruct (update_from_metadata metadata l1) as [l2|] eqn:E2; [discriminate|].
  intros [= <- _]. exact (updates_raise _ _ _ E1 E2).
Qed.

Lemma well_shaped_properties (fields : list (string * json)) (l : links) :
  well_shaped fields ->
  update_from_properties (JObj fields) l =
  Ok (match nested_links fields with
      | Some links_data =>
          {| twitter := override (Py.lookup "twitter" links_data) (twitter l);
             website := override (Py.lookup "website" links_data) (website l);
             telegram := override (Py.lookup "telegram" links_data) (telegram l) |}
      | None => l
      end).
Proof.
  unfold well_shaped, nested_links, update_from_properties. cbn.
  destruct (Py.lookup "properties" fields) as [p|]; cbn; [|reflexivity].
  destruct p; try contradiction. cbn.
  destruct (Py.lookup "links" fields0) as [ld|]; cbn; [|reflexivity].
  destruct ld; try contradiction. reflexivity.
Qed.

End ResolverFacts.

(** C6 - Resolver fail-safe: on an absent URI (a value that is false, as
    the empty text or [None]) [get_token_links] returns the bundle of
    defaults without a request; on a present URI, a timeout, a transport
    error, a status other than 200 or a body that is not JSON gives the
    bundle of defaults after one request; and whenever the body of the
    function is left by an exception, whatever its cause, the handlers
    return the bundle of defaults: the function returns a bundle in every
    world. *)
Theorem resolver_fail_safe (w : world) (st : state) :
  (forall uri, Py.truthy uri = false ->
      get_token_links w st uri = (default_links, st))
  /\ (forall u, u <> "" ->
         (http_get w u = Timeout
          \/ http_get w u = RequestError
          \/ (exists code body, http_get w u = Response code body /\ code <> 200%Z)
          \/ http_get w u = Response 200 None) ->
         get_token_links w st (JStr u) = (default_links, emit (EvGet u) st))
  /\ (forall uri l st',
         get_token_links_try w st uri default_links = (l, Raise, st') ->
         get_token_links w st uri = (default_links, st')).
Proof.
  split; [|split].
  - intros uri H. unfold get_token_links, get_token_links_try. now rewrite H.
  - intros u Hu H. unfold get_token_links, get_token_links_try.
    assert (Ht : Py.truthy (JStr u) = true).
    { cbn. apply negb_true_iff. now apply String.eqb_neq. }
    rewrite Ht. cbn [negb request].
    destruct H as [-> | [-> | [(code & body & -> & Hc) | ->]]]; try reflexivity.
    apply Z.eqb_neq in Hc. now rewrite Hc.
  - intros uri l st' H. unfold get_token_links. rewrite H.
    now rewrite (ResolverFacts.try_raise _ _ _ _ _ _ H).
Qed.

Lemma resolver_fail_safe_witness :
  let w := {| http_get := fun _ => Response 500 None; append_ok := true |} in
  let st := starting [] ["alice"] in
  get_token_links w st (JStr "") = (default_links, st)
  /\ get_token_links w st (JStr "https://meta.example/1")
     = (default_links, emit (EvGet "https://meta.example/1") st).
Proof.
  intros w st.
  destruct (resolver_fail_safe w st) as (Habsent & Hfail & _).
  split; [exact (Habsent (JStr "") eq_refl)|].
  apply Hfail; [discriminate|].
  right. right. left. exists 500%Z, None. split; [reflexivity | discriminate].
Defined.

(** C7, as stated, fails on a body whose [properties] is not an object:
    reading [links] in it raises, the handler returns the defaults, and the
    link under the key [twitter] of the body is never looked at. *)
Lemma population_fails_on_null_properties :
  let fields := [("properties", JNull);
                 ("twitter", JStr "https://x.com/alice/status/1")] in
  let w := serving (JObj fields) true in
  let st := starting [] ["alice"] in
  fst (get_token_links w st (JStr "https://meta.example/1")) = default_links
  /\ twitter (populated fields) = JStr "https://x.com/alice/status/1"
  /\ fst (get_token_links w st (JStr "https://meta.example/1")) <> populated fields.
Proof.
  repeat (split; [reflexivity|]). vm_compute. discriminate.
Qed.

(** C7 - Resolver field population order, amended: on a response with
    status 200 whose body is a JSON object in which [properties], when
    present, is an object and its [links], when present, is an object, each
    of the three fields is the default, overridden by the key of that name
    in [properties.links], then by the key [<name>_link] of the body, then
    by the key [<name>] of the body, each override taking place only when
    the key is present. *)
Theorem resolver_population_order (w : world) (st : state) (u : string)
    (fields : list (string * json)) :
  u <> "" ->
  http_get w u = Response 200 (Some (JObj fields)) ->
  well_shaped fields ->
  fst (get_token_links w st (JStr u)) = populated fields.
Proof.
  intros Hu Hget Hshape. unfold get_token_links, get_token_links_try.
  assert (Ht : Py.truthy (JStr u) = true).
  { cbn. apply negb_true_iff. now apply String.eqb_neq. }
  rewrite Ht. cbn [negb request]. rewrite Hget. cbn [Z.eqb Pos.eqb].
  rewrite (ResolverFacts.well_shaped_properties _ _ Hshape).
  unfold populated, populate, update_from_metadata. cbn [Py.get bind fst].
  unfold override.
  destruct (nested_links fields) as [links_data|]; cbn [twitter website telegram];
    reflexivity.
Qed.

Lemma resolver_population_order_witness :
  let fields := [("properties",
                  JObj [("links", JObj [("twitter", JStr "n1"); ("website", JStr "n2")])]);
                 ("twitter_link", JStr "t1"); ("telegram_link", JStr "t3")] in
  let w := serving (JObj fields) true in
  let st := starting [] [] in
  fst (get_token_links w st (JStr "https://meta.example/1"))
  = {| twitter := JStr "t1"; website := JStr "n2"; telegram := JStr "t3" |}.
Proof.
  intros fields w st.
  assert (Hu : "https://meta.example/1" <> "") by discriminate.
  exact (resolver_population_order w st "https://meta.example/1" fields Hu eq_refl I).
Defined.

(** * The classifier *)

Module ClassifierFacts.

Lemma carries_uri (payload u : json) : carries payload u -> token_uri payload = Ok u.
Proof.
  intros (fields & -> & [H | [H1 H2]]); unfold token_uri; cbn.
  - now rewrite H.
  - now rewrite H1, H2.
Qed.

(** The chain on a frame that is an object, by its shape. *)
Lemma classify_shape (fields : list (string * json)) :
  classify (JObj fields) =
  match shape_of (JObj fields) with
  | Some s =>
      match payload_of s (JObj fields) with
      | Some p => Ok (Some p)
      | None => Raise
      end
  | None => Ok None
  end.
Proof.
  unfold classify, shape_of, payload_of, tag_is, has_tag, tag. cbn.
  repeat match goal with
         | |- context [Py.lookup ?k fields] =>
             destruct (Py.lookup k fields); cbn
         | |- context [Py.is_str ?v ?x] =>
             destruct (Py.is_str v x); cbn
         end; reflexivity.
Qed.

(** A frame that is not an object passes no argument on. *)
Lemma classify_other (data : json) :
  (forall fields, data <> JObj fields) ->
  classify data = Raise \/ classify data = Ok None.
Proof.
  intros H. destruct data; try (now left).
  - unfold classify. cbn.
    destruct (PyStr.contains "method" s); cbn; [now left|].
    destruct (PyStr.contains "type" s); cbn; [now left|].
    destruct (PyStr.contains "event" s); cbn; [now left|].
    destruct (PyStr.contains "mint" s); cbn; [|now right].
    destruct (PyStr.contains "txType" s); cbn; [now left | now right].
  - unfold classify. cbn.
    destruct (existsb (fun x => Py.is_str x "method") l); cbn; [now left|].
    destruct (existsb (fun x => Py.is_str x "type") l); cbn; [now left|].
    destruct (existsb (fun x => Py.is_str x "event") l); cbn; [now left|].
    destruct (existsb (fun x => Py.is_str x "mint") l); cbn; [|now right].
    destruct (existsb (fun x => Py.is_str x "txType") l); cbn; [now left | now right].
  - now elim (H fields).
Qed.

End ClassifierFacts.

(** C5 - Classifier coverage: a frame of any of the four wire shapes whose
    event carries the metadata URI [u] announces the event with that URI,
    and [on_websocket_message] processes it as [process_token] processes
    that URI, whatever the shape; a frame of none of the four shapes
    announces nothing and is dropped: [process_token] is not called and the
    state is left as it was. *)
Theorem classifier_coverage (w : world) (st : state) :
  (forall data s payload u,
      shape_of data = Some s -> payload_of s data = Some payload ->
      carries payload u ->
      event_of data = Some u
      /\ on_websocket_message w st (Some data)
         = (Processed (Some (fst (process_uri w st u))), snd (process_uri w st u)))
  /\ (forall data,
         shape_of data = None ->
         event_of data = None
         /\ exists r, on_websocket_message w st (Some data) = (r, st)
                      /\ (r = Ignored \/ r = FrameError)).
Proof.
  split.
  - intros data s payload u Hs Hp Hc.
    assert (Hcl : classify data = Ok (Some payload)).
    { destruct data; try discriminate.
      now rewrite ClassifierFacts.classify_shape, Hs, Hp. }
    apply ClassifierFacts.carries_uri in Hc.
    unfold event_of, on_websocket_message, process_token. rewrite Hcl, Hc.
    split; [reflexivity|]. now destruct (process_uri w st u).
  - intros data Hs. unfold event_of, on_websocket_message.
    assert (Hcl : classify data = Raise \/ classify data = Ok None).
    { destruct data as [| | | | | |fields];
        try (apply ClassifierFacts.classify_other; discriminate).
      rewrite ClassifierFacts.classify_shape, Hs. now right. }
    destruct Hcl as [-> | ->]; (split; [reflexivity|]).
    + exists FrameError. now split; [|right].
    + exists Ignored. now split; [|left].
Qed.

Lemma classifier_coverage_witness :
  let w := serving (tweet_of "https://x.com/alice/status/999") true in
  let st := starting [] ["alice"] in
  let u := JStr "https://meta.example/1" in
  event_of (JObj [("method", JStr "newToken"); ("params", JObj [("uri", u)])]) = Some u
  /\ event_of (JObj [("type", JStr "newToken"); ("uri", u)]) = Some u
  /\ event_of (JObj [("event", JStr "token_created");
                     ("data", JObj [("metadataUri", u)])]) = Some u
  /\ event_of (JObj [("mint", JStr "abc"); ("txType", JStr "create"); ("uri", u)])
     = Some u
  /\ event_of (JObj [("mint", JStr "abc"); ("txType", JStr "buy"); ("uri", u)]) = None.
Proof.
  intros w st u.
  destruct (classifier_coverage w st) as [Hshape Hnone].
  pose (f1 := JObj [("method", JStr "newToken"); ("params", JObj [("uri", u)])]).
  pose (f2 := JObj [("type", JStr "newToken"); ("uri", u)]).
  pose (f3 := JObj [("event", JStr "token_created");
                    ("data", JObj [("metadataUri", u)])]).
  pose (f4 := JObj [("mint", JStr "abc"); ("txType", JStr "create"); ("uri", u)]).
  pose (f5 := JObj [("mint", JStr "abc"); ("txType", JStr "buy"); ("uri", u)]).
  split.
  { refine (proj1 (Hshape f1 MethodShape (JObj [("uri", u)]) u eq_refl eq_refl _)).
    exists [("uri", u)]. split; [reflexivity | now left]. }
  split.
  { refine (proj1 (Hshape f2 TypeShape f2 u eq_refl eq_refl _)).
    exists [("type", JStr "newToken"); ("uri", u)].
    split; [reflexivity | now left]. }
  split.
  { refine (proj1 (Hshape f3 EventShape (JObj [("metadataUri", u)]) u
                     eq_refl eq_refl _)).
    exists [("metadataUri", u)]. split; [reflexivity | now right]. }
  split.
  { refine (proj1 (Hshape f4 CreateShape f4 u eq_refl eq_refl _)).
    exists [("mint", JStr "abc"); ("txType", JStr "create"); ("uri", u)].
    split; [reflexivity | now left]. }
  exact (proj1 (Hnone f5 eq_refl)).
Defined.

(** * Further facts about the link parser *)

Module ExtractFacts.
Import PyStr PyStrFacts SplitFacts.

Lemma before_char_free (c : ascii) (s : string) :
  has_char c (before_char c s) = false.
Proof.
  induction s as [|d s IH]; [reflexivity|]. cbn [before_char].
  destruct (Ascii.eqb c d) eqn:E; [reflexivity|]. cbn [has_char]. now rewrite E.
Qed.

Lemma before_char_prefix (c : ascii) (s : string) :
  exists r, s = before_char c s ++ r.
Proof.
  induction s as [|d s (r & IH)]; [now exists ""|]. cbn [before_char].
  destruct (Ascii.eqb c d).
  - now exists (String d s).
  - exists r. cbn [append]. now rewrite <- IH.
Qed.

Lemma has_char_prefix (c : ascii) (x r : string) :
  has_char c (x ++ r) = false -> has_char c x = false.
Proof. rewrite has_char_app. intros H. now apply orb_false_iff in H as [H _]. Qed.

Lemma partition_prefix_none (sep x r : string) :
  partition sep (x ++ r) = None -> partition sep x = None.
Proof.
  intros H. destruct (partition sep x) as [[b a]|] eqn:E; [|reflexivity].
  rewrite (partition_app _ _ r _ _ E) in H. discriminate.
Qed.

Lemma prefix_extend (sep s t : string) :
  prefix sep s = true -> prefix sep (s ++ t) = true.
Proof.
  intros H. rewrite (prefix_true _ _ H), append_assoc. apply prefix_append.
Qed.

(** The text before the first occurrence holds no occurrence. *)
Lemma partition_leftmost (sep s b a : string) :
  sep <> "" -> partition sep s = Some (b, a) -> partition sep b = None.
Proof.
  intros Hsep. revert b a. induction s as [|c s IH]; intros b a H.
  - rewrite partition_nil in H by assumption. discriminate.
  - rewrite partition_eq in H. destruct (prefix sep (String c s)) eqn:Hp.
    + injection H as <- _. now apply partition_nil.
    + destruct (partition sep s) as [[b' a']|] eqn:Hs; [|discriminate].
      injection H as <- <-. rewrite partition_eq.
      destruct (prefix sep (String c b')) eqn:Hp'.
      * apply partition_sound in Hs. subst s.
        apply (prefix_extend _ _ (sep ++ a')) in Hp'.
        cbn [append] in Hp'. congruence.
      * now rewrite (IH _ _ eq_refl).
Qed.

(** The second element of a split holds no occurrence of the separator. *)
Lemma second_split_free (sep s x : string) :
  sep <> "" -> index (split sep s) 1 = Ok x -> partition sep x = None.
Proof.
  intros Hsep. rewrite split_eq by assumption.
  destruct (partition sep s) as [[b a]|]; [|discriminate].
  rewrite split_eq by assumption.
  destruct (partition sep a) as [[b' a']|] eqn:Ha; cbn; intros [= <-].
  - now apply (partition_leftmost sep a b' a').
  - exact Ha.
Qed.

Lemma second_split_exists (sep s : string) :
  sep <> "" -> contains sep s = true -> exists x, index (split sep s) 1 = Ok x.
Proof.
  intros Hsep. unfold contains. rewrite split_eq by assumption.
  destruct (partition sep s) as [[b a]|]; [|discriminate]. intros _.
  rewrite split_eq by assumption.
  destruct (partition sep a) as [[b' a']|]; cbn; eauto.
Qed.

(** The body of [extract_tweet_id] on a link that holds the marker. *)
Lemma tweet_id_body (url : string) :
  contains "/status/" url = true ->
  exists x, index (split "/status/" url) 1 = Ok x
    /\ extract_tweet_id_str url = Ok (Some (before_char "?" (before_char "#" x))).
Proof.
  intros Hc. destruct (second_split_exists "/status/" url) as (x & Hx);
    [discriminate | assumption |].
  exists x. split; [assumption|].
  unfold extract_tweet_id_str. rewrite Hc, Hx. cbn [bind].
  rewrite head_split_char. cbn [bind]. now rewrite head_split_char.
Qed.

Lemma lower_clean_char (c : ascii) :
  clean (lower_ascii c) = true -> account_char (lower_ascii c) = true.
Proof.
  destruct c as [[] [] [] [] [] [] [] []]; vm_compute; intros H;
    first [reflexivity | discriminate].
Qed.

Lemma normalize_chars (s : string) :
  all_chars account_char (filter clean (lower s)) = true.
Proof.
  induction s as [|c s IH]; [reflexivity|]. cbn [lower filter].
  destruct (clean (lower_ascii c)) eqn:E; [|exact IH].
  cbn [all_chars]. now rewrite (lower_clean_char c E), IH.
Qed.

Lemma find_account_chars (parts : list string) (a : string) :
  find_account parts = Some a -> all_chars account_char a = true.
Proof.
  induction parts as [|part rest IH]; [discriminate|].
  destruct rest as [|next rest']; [discriminate|].
  cbn [find_account]. destruct (is_host part).
  - intros [= <-]. apply normalize_chars.
  - exact IH.
Qed.

Lemma all_chars_has (p : ascii -> bool) (c : ascii) (s : string) :
  all_chars p s = true -> p c = false -> has_char c s = false.
Proof.
  intros Hs Hc. induction s as [|d s IH]; [reflexivity|].
  cbn in Hs |- *. apply andb_true_iff in Hs as [Hd Hs].
  rewrite (IH Hs), orb_false_r. apply Ascii.eqb_neq. intros ->. congruence.
Qed.

(** A key is cut in one way only when the account holds no bar. *)
Lemma key_cut (m m' a a' : string) :
  has_char "|" a = false -> has_char "|" a' = false ->
  m ++ "|" ++ a = m' ++ "|" ++ a' -> m = m' /\ a = a'.
Proof.
  intros Ha Ha'. revert m'. induction m as [|c m IH]; intros [|c' m'] E.
  - cbn in E. injection E as E. now split.
  - cbn in E. injection E as <- E. subst a.
    rewrite has_char_app in Ha. cbn in Ha. now rewrite orb_true_r in Ha.
  - cbn in E. injection E as -> E. subst a'.
    rewrite has_char_app in Ha'. cbn in Ha'. now rewrite orb_true_r in Ha'.
  - cbn [append] in E. injection E as <- E.
    destruct (IH _ E) as [-> ->]. now split.
Qed.

(** What [extract_tweet_id] leaves out of the id. *)
Lemma tweet_id_marks (l : json) (m : string) :
  extract_tweet_id l = Some m ->
  has_char "#" m = false /\ has_char "?" m = false /\ contains "/status/" m = false.
Proof.
  destruct l as [| | | |url| |]; try discriminate. cbn [extract_tweet_id].
  destruct (contains "/status/" url) eqn:Hc.
  - destruct (tweet_id_body url Hc) as (x & Hx & ->).
    cbn [catch_none]. intros [= <-].
    destruct (before_char_prefix "?" (before_char "#" x)) as (r & E).
    destruct (before_char_prefix "#" x) as (r' & E').
    split; [|split].
    + apply (has_char_prefix _ _ r). rewrite <- E. apply before_char_free.
    + apply before_char_free.
    + apply second_split_free in Hx; [|discriminate].
      rewrite E', E, append_assoc in Hx.
      apply partition_prefix_none in Hx.
      unfold contains. now rewrite Hx.
  - unfold extract_tweet_id_str. rewrite Hc. discriminate.
Qed.

(** The characters of an extracted account. *)
Lemma extracted_chars (l : json) (a : string) :
  extract_account_name l = Some a -> all_chars account_char a = true.
Proof.
  destruct l as [| | | |s| |]; try discriminate. cbn [extract_account_name].
  unfold extract_account_name_str.
  destruct (if contains "#" s then _ else _) as [l1|]; [|discriminate].
  cbn [bind].
  destruct (if contains "/status/" l1 then _ else _) as [l2|]; [|discriminate].
  cbn [bind catch_none]. apply find_account_chars.
Qed.

End ExtractFacts.

(** X1 - [extract_tweet_id] returns an id exactly for the links that hold
    the text [/status/]. *)
Theorem tweet_id_exactly_with_marker (url : string) :
  has_status_marker url <-> exists m, extract_tweet_id (JStr url) = Some m.
Proof.
  split.
  - intros H. apply ParserFacts.contains_marker in H.
    destruct (ExtractFacts.tweet_id_body url H) as (x & _ & E).
    eexists. cbn [extract_tweet_id]. now rewrite E.
  - intros (m & H). cbn [extract_tweet_id] in H.
    apply ParserFacts.contains_marker.
    unfold extract_tweet_id_str in H.
    destruct (PyStr.contains "/status/" url); [reflexivity | discriminate].
Qed.

(** X2 - The id that [extract_tweet_id] returns holds no ['#'], no ['?']
    and no further [/status/]. *)
Theorem tweet_id_free_of_marks (l : json) (m : string) :
  extract_tweet_id l = Some m ->
  PyStr.has_char "#" m = false
  /\ PyStr.has_char "?" m = false
  /\ PyStr.contains "/status/" m = false.
Proof. apply ExtractFacts.tweet_id_marks. Qed.

Lemma tweet_id_free_of_marks_witness :
  extract_tweet_id (JStr "https://x.com/a/status/12?s=20#x/status/3") = Some "12"
  /\ PyStr.has_char "#" "12" = false
  /\ PyStr.has_char "?" "12" = false
  /\ PyStr.contains "/status/" "12" = false.
Proof.
  split; [reflexivity|].
  exact (tweet_id_free_of_marks
           (JStr "https://x.com/a/status/12?s=20#x/status/3") "12" eq_refl).
Defined.



(** X4 - Two pairs of a message id and an extracted account that have the
    same key of the ledger are the same pair: the bar of the key cannot be
    mistaken, since an account holds none. *)
Theorem dedup_key_injective (l l' : json) (a a' m m' : string) :
  extract_account_name l = Some a ->
  extract_account_name l' = Some a' ->
  dedup_key m a = dedup_key m' a' ->
  m = m' /\ a = a'.
Proof.
  intros Ha Ha' E. apply ExtractFacts.key_cut; [| |exact E].
  - apply (ExtractFacts.all_chars_has account_char); [|reflexivity].
    exact (ExtractFacts.extracted_chars _ _ Ha).
  - apply (ExtractFacts.all_chars_has account_char); [|reflexivity].
    exact (ExtractFacts.extracted_chars _ _ Ha').
Qed.

Lemma dedup_key_injective_witness :
  extract_account_name (JStr "https://x.com/Bob/status/7|1") = Some "bob"
  /\ extract_account_name (JStr "https://twitter.com/bob") = Some "bob"
  /\ "7|1" = "7|1" /\ "bob" = "bob".
Proof.
  split; [reflexivity|]. split; [reflexivity|].
  exact (dedup_key_injective (JStr "https://x.com/Bob/status/7|1")
           (JStr "https://twitter.com/bob") "bob" "bob" "7|1" "7|1"
           eq_refl eq_refl eq_refl).
Defined.

(** * Loading the lists *)

Module TextFacts.
Import PyStr PyStrFacts SplitFacts PyText.

Lemma lstrip_head (s : string) :
  lstrip s = "" \/ exists c t, lstrip s = String c t /\ isspace c = false.
Proof.
  induction s as [|c s IH]; [now left|]. cbn [lstrip].
  destruct (isspace c) eqn:E; [exact IH|]. right. now exists c, s.
Qed.

Lemma rstrip_head (c : ascii) (s : string) :
  isspace c = false -> exists r, rstrip (String c s) = String c r.
Proof.
  intros E. cbn [rstrip]. destruct (rstrip s); [|eauto]. rewrite E. eauto.
Qed.

Lemma rstrip_idem (s : string) : rstrip (rstrip s) = rstrip s.
Proof.
  induction s as [|c s IH]; [reflexivity|]. cbn [rstrip].
  destruct (rstrip s) as [|d r] eqn:E.
  - destruct (isspace c) eqn:Hc; [reflexivity|]. cbn [rstrip]. now rewrite Hc.
  - change (rstrip (String c (String d r))) with
      (match rstrip (String d r) with
       | "" => if isspace c then "" else String c ""
       | r' => String c r'
       end).
    now rewrite IH.
Qed.

Lemma strip_idem (s : string) : strip (strip s) = strip s.
Proof.
  unfold strip. destruct (lstrip_head s) as [-> | (c & t & -> & Hc)]; [reflexivity|].
  destruct (rstrip_head c t Hc) as (r & E). rewrite E. cbn [lstrip]. rewrite Hc.
  rewrite <- E. apply rstrip_idem.
Qed.



















End TextFacts.

Module LoadFacts.
Import PyStr PyStrFacts SplitFacts PyText TextFacts.

Lemma lower_ascii_idem (c : ascii) : lower_ascii (lower_ascii c) = lower_ascii c.
Proof. destruct c as [[] [] [] [] [] [] [] []]; reflexivity. Qed.

Lemma isspace_lower (c : ascii) : isspace (lower_ascii c) = isspace c.
Proof. destruct c as [[] [] [] [] [] [] [] []]; reflexivity. Qed.

Lemma lower_idem (s : string) : lower (lower s) = lower s.
Proof.
  induction s as [|c s IH]; [reflexivity|]. cbn [lower].
  now rewrite lower_ascii_idem, IH.
Qed.

Lemma lstrip_lower (s : string) : lstrip (lower s) = lower (lstrip s).
Proof.
  induction s as [|c s IH]; [reflexivity|]. cbn [lower lstrip].
  rewrite isspace_lower. now destruct (isspace c).
Qed.

Lemma rstrip_lower (s : string) : rstrip (lower s) = lower (rstrip s).
Proof.
  induction s as [|c s IH]; [reflexivity|]. cbn [lower rstrip]. rewrite IH.
  destruct (rstrip s); cbn [lower]; [|reflexivity].
  rewrite isspace_lower. now destruct (isspace c).
Qed.

Lemma strip_lower (s : string) : strip (lower s) = lower (strip s).
Proof. unfold strip. now rewrite lstrip_lower, rstrip_lower. Qed.

Lemma lower_nil (s : string) : lower s = "" -> s = "".
Proof. now destruct s. Qed.








End LoadFacts.





(** X7 - Whatever the text of the files, the entries that the two loaders
    return are not empty and have nothing left to trim, and the accounts
    are in lower case; a missing file gives an empty list. *)
Theorem loaded_entries_trimmed :
  (forall text l e,
      load_tweet_blacklist (Content text) = Ok l -> In e l ->
      e <> "" /\ PyText.strip e = e)
  /\ (forall text l e,
         load_allowed_accounts (Content text) = Ok l -> In e l ->
         e <> "" /\ PyText.strip e = e /\ PyStr.lower e = e)
  /\ load_tweet_blacklist FileMissing = Ok []
  /\ load_allowed_accounts FileMissing = Ok [].
Proof.
  split; [|split; [|split; reflexivity]].
  - intros text l e [= <-] Hin. apply in_map_iff in Hin as (line & <- & Hin).
    apply filter_In in Hin as [_ Hline]. unfold blacklist_line in Hline.
    apply andb_true_iff in Hline as [Hne _]. apply negb_true_iff in Hne.
    apply String.eqb_neq in Hne. split; [exact Hne | apply TextFacts.strip_idem].
  - intros text l e [= <-] Hin. apply in_map_iff in Hin as (line & <- & Hin).
    apply filter_In in Hin as [_ Hne]. apply negb_true_iff in Hne.
    apply String.eqb_neq in Hne. split; [|split].
    + intros E. apply LoadFacts.lower_nil in E. contradiction.
    + now rewrite LoadFacts.strip_lower, TextFacts.strip_idem.
    + apply LoadFacts.lower_idem.
Qed.

Lemma loaded_entries_trimmed_witness :
  load_allowed_accounts (Content (render [" Alice "])) = Ok ["alice"]
  /\ "alice" <> "" /\ PyText.strip "alice" = "alice" /\ PyStr.lower "alice" = "alice".
Proof.
  split; [reflexivity|].
  exact (proj1 (proj2 loaded_entries_trimmed) (render [" Alice "]) ["alice"] "alice"
           eq_refl (or_introl eq_refl)).
Defined.



(** * Runs of the pipeline *)

Module RunFacts.
Import GateFacts PipelineFacts CommitFacts.

Lemma quiet_refl (st : state) : quiet st st.
Proof. now repeat split. Qed.

Lemma reject_quiet (w : world) (st : state) (uri : json) (r : reason) :
  fst (process_uri w st uri) = Reject r -> quiet st (snd (process_uri w st uri)).
Proof.
  intros H. rewrite (process_uri_reject _ _ _ _ H).
  destruct (get_token_links_state w st uri) as (Hb & Ha & Hf & _).
  destruct (get_token_links_quiet w st uri) as [Hs Hw].
  now repeat split.
Qed.

(** What an acceptance has checked and what it changes. *)
Lemma accept_step (w : world) (st : state) (uri : json) (a m : string) :
  fst (process_uri w st uri) = Accept a m ->
  let st' := snd (process_uri w st uri) in
  let link := resolved_link w st uri in
  let key := dedup_key m a in
  extract_account_name link = Some a /\ extract_tweet_id link = Some m
  /\ a <> "" /\ m <> ""
  /\ ~ In key (tweet_blacklist st) /\ In a (allowed_accounts st)
  /\ allowed_accounts st' = allowed_accounts st
  /\ sent (effects st') = (sent (effects st) ++ [(link, a)])%list
  /\ (if append_ok w
      then tweet_blacklist st' = (tweet_blacklist st ++ [key])%list
           /\ blacklist_file st' = blacklist_file st ++ key ++ newline
      else tweet_blacklist st' = tweet_blacklist st
           /\ blacklist_file st' = blacklist_file st).
Proof.
  intros H. cbn zeta.
  pose proof H as Hg. rewrite process_uri_gate in Hg.
  apply gate_accept in Hg as (Ha & Hm & Hna & Hnm & Hk & Hal).
  split; [exact Ha|]. split; [exact Hm|].
  split; [intros ->; discriminate|]. split; [intros ->; discriminate|].
  split. { intros Hin. apply mem_In in Hin. congruence. }
  split. { now apply mem_In. }
  split; [|split; [exact (accept_sent _ _ _ _ _ H)|]].
  - rewrite (process_uri_accept _ _ _ _ _ H).
    destruct (get_token_links_state w st uri) as (_ & Hall & _).
    unfold save_to_blacklist. now destruct (append_ok w).
  - rewrite (process_uri_accept _ _ _ _ _ H).
    destruct (get_token_links_state w st uri) as (Hb & _ & Hf & _).
    unfold save_to_blacklist, dedup_key.
    destruct (append_ok w); cbn; rewrite Hb, Hf; now split.
Qed.

(** A frame is either an acceptance or quiet. *)
Lemma frame_step (w : world) (st : state) (message : option json) :
  (exists uri a m,
      fst (on_websocket_message w st message) = Processed (Some (Accept a m))
      /\ fst (process_uri w st uri) = Accept a m
      /\ snd (on_websocket_message w st message) = snd (process_uri w st uri))
  \/ ((forall a m,
          fst (on_websocket_message w st message) <> Processed (Some (Accept a m)))
      /\ quiet st (snd (on_websocket_message w st message))).
Proof.
  unfold on_websocket_message.
  destruct message as [data|]; [|right; split; [discriminate | apply quiet_refl]].
  destruct (classify data) as [[token_data|]|];
    try (right; split; [discriminate | apply quiet_refl]).
  unfold process_token.
  destruct (token_uri token_data) as [uri|];
    [|right; split; [discriminate | apply quiet_refl]].
  destruct (process_uri w st uri) as [d st1] eqn:E.
  destruct d as [a m|r].
  - left. exists uri, a, m. rewrite E. now repeat split.
  - right. split; [discriminate|].
    pose proof (reject_quiet w st uri r) as Q. rewrite E in Q. now apply Q.
Qed.

Lemma file_of_render (added : list string) : file_of added = render added.
Proof. reflexivity. Qed.

Lemma render_app (xs ys : list string) : render (xs ++ ys) = render xs ++ render ys.
Proof.
  induction xs as [|x xs IH]; [reflexivity|]. cbn [app render fold_right].
  fold (render (xs ++ ys)). fold (render xs).
  now rewrite IH, !PyStrFacts.append_assoc.
Qed.

Lemma render_one (k : string) : render [k] = k ++ newline.
Proof. unfold render. cbn [fold_right]. now rewrite PyStrFacts.append_nil_r. Qed.

(** One frame adds at most one key, to the ledger and to the file alike. *)
Lemma frame_lockstep (w : world) (st : state) (message : option json) :
  let st' := snd (on_websocket_message w st message) in
  exists added,
    tweet_blacklist st' = (tweet_blacklist st ++ added)%list
    /\ blacklist_file st' = blacklist_file st ++ render added
    /\ (forall k, In k added -> ~ In k (tweet_blacklist st))
    /\ NoDup added.
Proof.
  cbn zeta.
  assert (Hnone : forall st', tweet_blacklist st' = tweet_blacklist st ->
                    blacklist_file st' = blacklist_file st ->
                    exists added,
                      tweet_blacklist st' = (tweet_blacklist st ++ added)%list
                      /\ blacklist_file st' = blacklist_file st ++ render added
                      /\ (forall k, In k added -> ~ In k (tweet_blacklist st))
                      /\ NoDup added).
  { intros st' Hb Hf. exists []. rewrite app_nil_r.
    change (render []) with "". rewrite PyStrFacts.append_nil_r.
    repeat split; [assumption | assumption | intros k [] | constructor]. }
  destruct (frame_step w st message) as [(uri & a & m & _ & Hacc & ->) | [_ Q]].
  - destruct (accept_step w st uri a m Hacc) as (_ & _ & _ & _ & Hk & _ & _ & _ & Hsave).
    destruct (append_ok w); [|now apply Hnone].
    destruct Hsave as [Hb Hf]. exists [dedup_key m a].
    rewrite render_one. split; [exact Hb|]. split; [exact Hf|].
    split; [|repeat constructor; intros []].
    intros k [<-|[]]. exact Hk.
  - destruct Q as (Hb & _ & Hf & _). now apply Hnone.
Qed.

Lemma receive_app (st : state) (f1 f2 : list (world * option json)) :
  receive st (f1 ++ f2) = receive (receive st f1) f2.
Proof.
  revert st. induction f1 as [|[w m] f1 IH]; intros st; [reflexivity|].
  cbn [app receive]. apply IH.
Qed.

Lemma receive_allowed (frames : list (world * option json)) (st : state) :
  allowed_accounts (receive st frames) = allowed_accounts st.
Proof.
  revert st. induction frames as [|[w message] rest IH]; intros st; [reflexivity|].
  cbn [receive]. rewrite IH.
  destruct (frame_step w st message) as [(uri & a & m & _ & Hacc & ->) | [_ Q]].
  - now destruct (accept_step w st uri a m Hacc) as (_ & _ & _ & _ & _ & _ & H & _).
  - now destruct Q as (_ & H & _).
Qed.

End RunFacts.

(** X9 - The allow-list is never changed by the frames that are received. *)
Theorem allowed_accounts_constant (st : state) (frames : list (world * option json)) :
  allowed_accounts (receive st frames) = allowed_accounts st.
Proof. apply RunFacts.receive_allowed. Qed.

Module LedgerFacts.
Import RunFacts.

(** The ledger and the file grow together. *)
Lemma receive_lockstep (frames : list (world * option json)) (st : state) :
  exists added,
    tweet_blacklist (receive st frames) = (tweet_blacklist st ++ added)%list
    /\ blacklist_file (receive st frames) = blacklist_file st ++ render added
    /\ (forall k, In k added -> ~ In k (tweet_blacklist st))
    /\ NoDup added.
Proof.
  revert st. induction frames as [|[w message] rest IH]; intros st.
  - exists []. rewrite app_nil_r. change (render []) with "".
    rewrite PyStrFacts.append_nil_r. repeat split; [intros k [] | constructor].
  - cbn [receive].
    destruct (frame_lockstep w st message) as (a1 & Hb1 & Hf1 & Hn1 & Hd1).
    destruct (IH (snd (on_websocket_message w st message)))
      as (a2 & Hb2 & Hf2 & Hn2 & Hd2).
    exists (a1 ++ a2)%list. rewrite Hb2, Hf2, Hb1, Hf1.
    rewrite <- app_assoc, render_app, PyStrFacts.append_assoc.
    split; [reflexivity|]. split; [reflexivity|]. split.
    + intros k Hin Hst. apply in_app_or in Hin as [Hin | Hin].
      * exact (Hn1 k Hin Hst).
      * apply (Hn2 k Hin). rewrite Hb1. apply in_or_app. now left.
    + apply NoDup_app; [assumption | assumption |].
      intros k Hk1 Hk2. apply (Hn2 k Hk2). rewrite Hb1. apply in_or_app. now right.
Qed.

End LedgerFacts.



(** X11 - A ledger without repeated key stays without repeated key: a key
    is never recorded twice. *)
Theorem ledger_without_repeats (st : state) (frames : list (world * option json)) :
  NoDup (tweet_blacklist st) -> NoDup (tweet_blacklist (receive st frames)).
Proof.
  intros H.
  destruct (LedgerFacts.receive_lockstep frames st) as (added & -> & _ & Hn & Hd).
  apply NoDup_app; [assumption | assumption |].
  intros k Hk Hadd. exact (Hn k Hadd Hk).
Qed.

Lemma ledger_without_repeats_witness :
  let w := serving (tweet_of "https://x.com/alice/status/999") true in
  let frame := Some (JObj [("type", JStr "newToken");
                           ("uri", JStr "https://meta.example/1")]) in
  NoDup (tweet_blacklist (receive (starting ["1|bob"] ["alice"])
                            [(w, frame); (w, frame); (w, frame)])).
Proof.
  intros w frame.
  apply (ledger_without_repeats (starting ["1|bob"] ["alice"])).
  repeat constructor. intros [].
Defined.

Module SinkFacts.
Import RunFacts.

(** The invariant of the calls of the sink: their keys are all different
    and all in the ledger. *)
Lemma frame_sent_keys (w : world) (st : state) (message : option json) :
  append_ok w = true ->
  NoDup (sent_keys st) -> incl (sent_keys st) (tweet_blacklist st) ->
  let st' := snd (on_websocket_message w st message) in
  NoDup (sent_keys st') /\ incl (sent_keys st') (tweet_blacklist st').
Proof.
  intros Hw Hd Hi. cbn zeta. unfold sent_keys in *.
  destruct (frame_step w st message) as [(uri & a & m & _ & Hacc & ->) | [_ Q]].
  - destruct (accept_step w st uri a m Hacc)
      as (_ & Hm & _ & _ & Hk & _ & _ & Hs & Hsave).
    rewrite Hw in Hsave. destruct Hsave as [Hb _]. rewrite Hs, Hb, map_app.
    assert (Ekey : key_of_send (resolved_link w st uri, a) = dedup_key m a).
    { unfold key_of_send. cbn [fst snd]. now rewrite Hm. }
    cbn [map]. rewrite Ekey. split.
    + apply NoDup_app; [assumption | repeat constructor; intros [] |].
      intros k Hin [<-|[]]. apply Hk. now apply Hi.
    + apply incl_app.
      * intros k Hin. apply in_or_app. left. now apply Hi.
      * intros k [<-|[]]. apply in_or_app. right. now left.
  - destruct Q as (-> & _ & _ & -> & _). now split.
Qed.

(** Every call of the sink is for an account of the allow-list that the
    link of the call yields, with a message id. *)
Lemma frame_sent_allowed (w : world) (st : state) (message : option json)
    (s : json * string) :
  In s (sent (effects (snd (on_websocket_message w st message)))) ->
  In s (sent (effects st))
  \/ (In (snd s) (allowed_accounts st)
      /\ extract_account_name (fst s) = Some (snd s)
      /\ exists m, extract_tweet_id (fst s) = Some m /\ m <> "").
Proof.
  destruct (frame_step w st message) as [(uri & a & m & _ & Hacc & ->) | [_ Q]].
  - destruct (accept_step w st uri a m Hacc)
      as (Ha & Hm & _ & Hnm & _ & Hal & _ & Hs & _).
    rewrite Hs. intros Hin. apply in_app_or in Hin as [Hin | [<-|[]]]; [now left|].
    right. cbn [fst snd]. split; [exact Hal|]. split; [exact Ha|]. now exists m.
  - destruct Q as (_ & _ & _ & -> & _). now left.
Qed.

End SinkFacts.

(** X12 - At most one notification for a key: when no append to the file
    fails, the calls of the sink made while frames are received have
    different keys, whatever the frames and whatever the network answers. *)
Theorem at_most_once_per_key (st : state) (frames : list (world * option json)) :
  NoDup (sent_keys st) ->
  incl (sent_keys st) (tweet_blacklist st) ->
  Forall (fun f => append_ok (fst f) = true) frames ->
  NoDup (sent_keys (receive st frames)).
Proof.
  intros Hd Hi Hok.
  enough (NoDup (sent_keys (receive st frames))
          /\ incl (sent_keys (receive st frames)) (tweet_blacklist (receive st frames)))
    as [H _] by exact H.
  revert st Hd Hi. induction Hok as [|[w message] rest Hw Hrest IH]; intros st Hd Hi.
  - now split.
  - cbn [receive]. cbn [fst] in Hw.
    destruct (SinkFacts.frame_sent_keys w st message Hw Hd Hi) as [Hd' Hi'].
    now apply IH.
Qed.

Lemma at_most_once_per_key_witness :
  let w1 := serving (tweet_of "https://x.com/alice/status/999?s=1") true in
  let w2 := serving (tweet_of "https://twitter.com/Alice/status/999#top") true in
  let frame := Some (JObj [("type", JStr "newToken");
                           ("uri", JStr "https://meta.example/1")]) in
  let st := receive (starting [] ["alice"]) [(w1, frame); (w2, frame); (w1, frame)] in
  sent_keys st = ["999|alice"] /\ NoDup (sent_keys st).
Proof.
  intros w1 w2 frame st. split; [reflexivity|].
  apply (at_most_once_per_key (starting [] ["alice"])).
  - constructor.
  - intros k [].
  - repeat constructor.
Defined.

(** X13 - The sink is called only for accounts of the allow-list: every
    call made while frames are received is for an account that is in the
    allow-list and that the link of the call yields, together with a
    message id. *)
Theorem sink_only_for_allowed (st : state) (frames : list (world * option json))
    (s : json * string) :
  In s (sent (effects (receive st frames))) ->
  In s (sent (effects st))
  \/ (In (snd s) (allowed_accounts st)
      /\ extract_account_name (fst s) = Some (snd s)
      /\ exists m, extract_tweet_id (fst s) = Some m /\ m <> "").
Proof.
  revert st. induction frames as [|[w message] rest IH]; intros st Hin; [now left|].
  cbn [receive] in Hin. apply IH in Hin as [Hin | Hnew].
  - now apply (SinkFacts.frame_sent_allowed w st message).
  - right. rewrite <- (RunFacts.receive_allowed [(w, message)] st). exact Hnew.
Qed.

Lemma sink_only_for_allowed_witness :
  let w := serving (tweet_of "https://x.com/alice/status/999") true in
  let frame := Some (JObj [("type", JStr "newToken");
                           ("uri", JStr "https://meta.example/1")]) in
  let s := (JStr "https://x.com/alice/status/999", "alice") in
  In s (sent (effects (starting [] ["alice"])))
  \/ (In (snd s) (allowed_accounts (starting [] ["alice"]))
      /\ extract_account_name (fst s) = Some (snd s)
      /\ exists m, extract_tweet_id (fst s) = Some m /\ m <> "").
Proof.
  intros w frame s.
  apply (sink_only_for_allowed (starting [] ["alice"]) [(w, frame)] s).
  now left.
Defined.

(** X14 - A frame that is not accepted, be it ignored, malformed or
    rejected for any reason, leaves the ledger, the allow-list and the file
    as they were, writes nothing and calls no sink. *)
Theorem unaccepted_frame_is_quiet (w : world) (st : state) (message : option json) :
  (forall a m,
      fst (on_websocket_message w st message) <> Processed (Some (Accept a m))) ->
  quiet st (snd (on_websocket_message w st message)).
Proof.
  intros H.
  destruct (RunFacts.frame_step w st message) as [(uri & a & m & Hf & _) | [_ Q]];
    [now elim (H a m) | exact Q].
Qed.

Lemma unaccepted_frame_is_quiet_witness :
  let w := serving (tweet_of "https://x.com/mallory/status/5") true in
  let frame := Some (JObj [("type", JStr "newToken");
                           ("uri", JStr "https://meta.example/1")]) in
  let st := starting ["1|bob"] ["alice"] in
  fst (on_websocket_message w st frame) = Processed (Some (Reject AccountNotAllowed))
  /\ quiet st (snd (on_websocket_message w st frame)).
Proof.
  intros w frame st. split; [reflexivity|].
  apply (unaccepted_frame_is_quiet w st frame). intros a m. discriminate.
Defined.

(** X15 - With an empty allow-list, as a missing file of accounts gives,
    nothing is ever sent or recorded. *)
Theorem empty_allow_list_is_mute (st : state) (frames : list (world * option json)) :
  allowed_accounts st = [] ->
  quiet st (receive st frames).
Proof.
  revert st. induction frames as [|[w message] rest IH]; intros st Hal.
  - apply RunFacts.quiet_refl.
  - cbn [receive].
    assert (Q : quiet st (snd (on_websocket_message w st message))).
    { destruct (RunFacts.frame_step w st message)
        as [(uri & a & m & _ & Hacc & _) | [_ Q]]; [|exact Q].
      destruct (RunFacts.accept_step w st uri a m Hacc) as (_ & _ & _ & _ & _ & Hin & _).
      rewrite Hal in Hin. destruct Hin. }
    destruct Q as (Qb & Qa & Qf & Qs & Qw).
    assert (Hal' : allowed_accounts (snd (on_websocket_message w st message)) = []).
    { now rewrite Qa. }
    destruct (IH _ Hal') as (Rb & Ra & Rf & Rs & Rw).
    repeat split; congruence.
Qed.

Lemma empty_allow_list_is_mute_witness :
  let w := serving (tweet_of "https://x.com/alice/status/999") true in
  let frame := Some (JObj [("type", JStr "newToken");
                           ("uri", JStr "https://meta.example/1")]) in
  quiet (starting [] []) (receive (starting [] []) [(w, frame); (w, frame)]).
Proof.
  intros w frame.
  exact (empty_allow_list_is_mute (starting [] []) [(w, frame); (w, frame)] eq_refl).
Defined.

Module AcceptFacts.
Import PyStr PyStrFacts SplitFacts ParserFacts.

(** An account is found only in a link with a host among its segments. *)
Lemma account_host (url a : string) :
  extract_account_name (JStr url) = Some a -> has_host_segment url.
Proof.
  cbn [extract_account_name]. unfold extract_account_name_str.
  destruct (cut_prefix "#" url) as (l1 & r1 & -> & E1); [discriminate|].
  cbn [bind].
  destruct (cut_prefix "/status/" l1) as (l2 & r2 & -> & E2); [discriminate|].
  cbn [bind catch_none]. intros Hf.
  destruct (find_account_host _ _ Hf) as (h & Hin & Hhost).
  exists h. split; [|assumption].
  rewrite E1, E2, append_assoc.
  apply (inner_segments_app "/" h (r2 ++ r1) (String.length l2));
    [discriminate | lia | assumption].
Qed.

Lemma tweet_id_marker (url m : string) :
  extract_tweet_id (JStr url) = Some m -> has_status_marker url.
Proof.
  cbn [extract_tweet_id]. unfold extract_tweet_id_str. intros H.
  apply contains_marker. destruct (contains "/status/" url); [reflexivity | discriminate].
Qed.

End AcceptFacts.

(** X16 - What an acceptance requires: an event is accepted only when the
    resolver returned a text, other than the sentinel, that holds a host
    segment and the marker [/status/], the account and the message id are
    not empty, the account is in the allow-list and the key is not in the
    ledger. *)
Theorem acceptance_requires (w : world) (st : state) (uri : json) (a m : string) :
  fst (process_uri w st uri) = Accept a m ->
  exists link,
    resolved_link w st uri = JStr link
    /\ link <> unavailable
    /\ has_host_segment link /\ has_status_marker link
    /\ extract_account_name (JStr link) = Some a
    /\ extract_tweet_id (JStr link) = Some m
    /\ a <> "" /\ m <> ""
    /\ In a (allowed_accounts st)
    /\ ~ In (dedup_key m a) (tweet_blacklist st).
Proof.
  intros H.
  destruct (RunFacts.accept_step w st uri a m H)
    as (Ha & Hm & Hna & Hnm & Hk & Hal & _).
  destruct (resolved_link w st uri) as [| | | |link| |] eqn:E; try discriminate.
  exists link. split; [reflexivity|]. split.
  { intros ->. discriminate. }
  split; [exact (AcceptFacts.account_host _ _ Ha)|].
  split; [exact (AcceptFacts.tweet_id_marker _ _ Hm)|].
  now repeat split.
Qed.

Lemma acceptance_requires_witness :
  let w := serving (tweet_of "https://x.com/alice/status/999") true in
  let st := starting ["1|bob"] ["alice"] in
  exists link,
    resolved_link w st (JStr "https://meta.example/1") = JStr link
    /\ link <> unavailable
    /\ has_host_segment link /\ has_status_marker link
    /\ extract_account_name (JStr link) = Some "alice"
    /\ extract_tweet_id (JStr link) = Some "999"
    /\ "alice" <> "" /\ "999" <> ""
    /\ In "alice" (allowed_accounts st)
    /\ ~ In (dedup_key "999" "alice") (tweet_blacklist st).
Proof.
  intros w st.
  exact (acceptance_requires w st (JStr "https://meta.example/1") "alice" "999" eq_refl).
Defined.

(** X17 - An event without metadata URI makes no request: when [uri] is
    missing, and [metadataUri] too, or when the URI is empty or otherwise
    false, the event is rejected for lack of a link and the state is left
    as it was. *)
Theorem no_uri_no_request (w : world) (st : state) :
  (forall uri, Py.truthy uri = false ->
      process_uri w st uri = (Reject NoSocialLink, st))
  /\ (forall fields,
         Py.lookup "uri" fields = None -> Py.lookup "metadataUri" fields = None ->
         process_token w st (JObj fields) = (Some (Reject NoSocialLink), st)).
Proof.
  assert (H : forall uri, Py.truthy uri = false ->
                process_uri w st uri = (Reject NoSocialLink, st)).
  { intros uri Hf. unfold process_uri, get_token_links, get_token_links_try.
    now rewrite Hf. }
  split; [exact H|].
  intros fields Hu Hm. unfold process_token, token_uri. cbn [Py.get bind].
  rewrite Hu, Hm. now rewrite (H (JStr "") eq_refl).
Qed.

Lemma no_uri_no_request_witness :
  let w := serving (tweet_of "https://x.com/alice/status/999") true in
  let st := starting [] ["alice"] in
  process_token w st (JObj [("mint", JStr "abc"); ("txType", JStr "create")])
  = (Some (Reject NoSocialLink), st).
Proof.
  intros w st.
  exact (proj2 (no_uri_no_request w st)
           [("mint", JStr "abc"); ("txType", JStr "create")] eq_refl eq_refl).
Defined.

(** X18 - A response with status 200 whose JSON body is not an object, be
    it a list, a text, a number, a boolean or null, gives the bundle of
    defaults. *)
Theorem body_not_object (w : world) (st : state) (u : string) (metadata : json) :
  u <> "" ->
  http_get w u = Response 200 (Some metadata) ->
  (forall fields, metadata <> JObj fields) ->
  fst (get_token_links w st (JStr u)) = default_links.
Proof.
  intros Hu Hget Hno. unfold get_token_links.
  destruct (get_token_links_try w st (JStr u) default_links) as [[l e] st1] eqn:E.
  cbn [fst]. destruct e as [[]|].
  - exfalso. revert E. unfold get_token_links_try.
    assert (Ht : Py.truthy (JStr u) = true).
    { cbn. apply negb_true_iff. now apply String.eqb_neq. }
    rewrite Ht. cbn [negb request]. rewrite Hget. cbn [Z.eqb Pos.eqb].
    destruct (update_from_properties metadata default_links) as [l1|]; [|discriminate].
    destruct metadata; try discriminate. now elim (Hno fields).
  - exact (ResolverFacts.try_raise _ _ _ _ _ _ E).
Qed.

Lemma body_not_object_witness :
  let w := serving (JArr [JStr "twitter"; JStr "https://x.com/alice/status/1"]) true in
  fst (get_token_links w (starting [] []) (JStr "https://meta.example/1"))
  = default_links.
Proof.
  intros w.
  assert (Hu : "https://meta.example/1" <> "") by discriminate.
  apply (body_not_object w (starting [] []) "https://meta.example/1"
           (JArr [JStr "twitter"; JStr "https://x.com/alice/status/1"]) Hu eq_refl).
  discriminate.
Defined.





Module LoopFacts.

Lemma sleeps_slept (es : list wire_event) : sleeps (es ++ [Slept 10]) = sleeps es + 1.
Proof. unfold sleeps. now rewrite filter_app, length_app. Qed.

Lemma sleeps_send (es : list wire_event) (t : string) :
  sleeps (es ++ [WsSend t]) = sleeps es.
Proof. unfold sleeps. rewrite filter_app, length_app. cbn. lia. Qed.

Lemma subscriptions_slept (es : list wire_event) (n : nat) :
  subscriptions (es ++ [Slept n]) = subscriptions es.
Proof. unfold subscriptions. rewrite filter_app, length_app. cbn. lia. Qed.

Lemma subscriptions_send (es : list wire_event) :
  subscriptions (es ++ [WsSend subscription]) = subscriptions es + 1.
Proof. unfold subscriptions. now rewrite filter_app, length_app. Qed.

Lemma openings_cons (c : callback) (session : list callback) :
  openings (c :: session)
  = (match c with OnOpen => 1 | _ => 0 end) + openings session.
Proof. unfold openings. now destruct c. Qed.

(** The callbacks of one connection. *)
Lemma session_run (session : list callback) (b : bot) :
  core (fold_left dispatch session b) = receive (core b) (frames_of session)
  /\ sleeps (wire (fold_left dispatch session b)) = sleeps (wire b)
  /\ subscriptions (wire (fold_left dispatch session b))
     = subscriptions (wire b) + openings session.
Proof.
  revert b. induction session as [|c session IH]; intros b.
  - cbn [fold_left frames_of flat_map receive]. repeat split.
    change (openings []) with 0. lia.
  - cbn [fold_left]. destruct (IH (dispatch b c)) as (Hc & Hs & Hsub).
    rewrite Hc, Hs, Hsub, openings_cons.
    destruct c; cbn [dispatch core wire frames_of flat_map app receive].
    + rewrite sleeps_send, subscriptions_send. repeat split. lia.
    + repeat split.
    + repeat split.
    + repeat split.
Qed.

End LoopFacts.

(** X21 - Reconnecting keeps the ledger and always waits: after the
    connections that have ended, however each one ended, the state is the
    one that receiving all their frames in a row gives, the bot has slept
    ten seconds once for each connection, and it has subscribed once for
    each opening. *)
Theorem reconnect_keeps_ledger (sessions : list (list callback)) (b : bot) :
  core (run_websocket b sessions) = receive (core b) (flat_map frames_of sessions)
  /\ sleeps (wire (run_websocket b sessions))
     = sleeps (wire b) + List.length sessions
  /\ subscriptions (wire (run_websocket b sessions))
     = subscriptions (wire b) + list_sum (map openings sessions).
Proof.
  unfold run_websocket. revert b.
  induction sessions as [|session sessions IH]; intros b.
  - cbn [fold_left flat_map receive map List.length].
    change (list_sum []) with 0. repeat split; lia.
  - cbn [fold_left flat_map map List.length].
    change (list_sum (openings session :: map openings sessions))
      with (openings session + list_sum (map openings sessions)).
    destruct (IH (connection b session)) as (Hc & Hs & Hsub).
    rewrite Hc, Hs, Hsub. unfold connection. cbn [core wire].
    destruct (LoopFacts.session_run session b) as (Hc1 & Hs1 & Hsub1).
    rewrite Hc1, RunFacts.receive_app.
    rewrite LoopFacts.sleeps_slept, LoopFacts.subscriptions_slept, Hs1, Hsub1.
    repeat split; lia.
Qed.



Module JoinFacts.
Import PyStr PyStrFacts.

Lemma concat_cons (sep x : string) (xs : list string) :
  xs <> [] -> String.concat sep (x :: xs) = x ++ sep ++ String.concat sep xs.
Proof. destruct xs; [contradiction | reflexivity]. Qed.

Lemma join_split (sep : string) (n : nat) :
  sep <> "" ->
  forall s, String.length s <= n -> String.concat sep (split sep s) = s.
Proof.
  intros Hsep. induction n as [|n IH]; intros s Hlen.
  - destruct s; simpl in Hlen; [|lia].
    now rewrite split_eq, partition_nil by assumption.
  - rewrite split_eq by assumption.
    destruct (partition sep s) as [[b a]|] eqn:Hp; [|reflexivity].
    rewrite concat_cons by apply split_not_nil.
    pose proof (partition_shorter _ _ _ _ Hsep Hp) as Hshort.
    rewrite IH by lia. symmetry. now apply partition_sound.
Qed.

End JoinFacts.

(** X23 - Cutting a link at a separator loses nothing: the parts of
    [s.split(sep)], joined again with the separator, are the text [s]. *)
Theorem split_then_join (sep s : string) :
  sep <> "" -> String.concat sep (PyStr.split sep s) = s.
Proof.
  intros Hsep. apply (JoinFacts.join_split sep (String.length s) Hsep). lia.
Qed.

Lemma split_then_join_witness :
  String.concat "/status/" (PyStr.split "/status/" "https://x.com/a/status/1/status/")
  = "https://x.com/a/status/1/status/".
Proof.
  assert (Hsep : "/status/" <> "") by discriminate.
  exact (split_then_join "/status/" "https://x.com/a/status/1/status/" Hsep).
Defined.
